(** * EcoX ML service: carbon estimation and utility-bill extraction

    A shallow embedding of [src/ml-service/app.py]: the emission-factor
    table, [CarbonCalculator] (estimation, confidence, savings potential,
    recommendations), [ImageAnalyzer.parse_utility_bill] with the [re]
    searches it performs, and the part of [analyze_image] that decides
    whether an estimation is run.

    Conventions of the embedding.
    - A Python [float] is modelled by its real value: a finite float is an
      exact rational (no rounding error, no overflow, no signed zero), and
      the three non-finite values are kept because the JSON decoder and
      [float()] can produce them.
    - A Python [str] is a [string] whose characters are the code points
      0..255; the character classes below are Python's on that range.
    - A Python [dict] is a [gmap string pyval], a [list] a Rocq [list].
    - A statement that can raise returns a [py A]; [try/except] is a
      [match] on it.
    - The fitted regression model and the text of an exception message
      belong to scikit-learn and to the interpreter: they are parameters. *)

From Stdlib Require Import ZArith QArith Qround Qabs Qminmax Ascii String List Bool Lia.
From Stdlib Require Import DecimalString Lqa.
From stdpp Require Import gmap strings.

Set Warnings "-register-all".
Local Open Scope Z_scope.

(** ** Floats *)

Module PyFloat.

Inductive pyfloat :=
| Fin (q : Q)
| PosInf
| NegInf
| NaN.

Definition of_Z (z : Z) : pyfloat := Fin (inject_Z z).

(** Sign of a rational as a comparison with zero. *)
Definition Qsign (q : Q) : comparison := (q ?= 0)%Q.

Definition fneg (a : pyfloat) : pyfloat :=
  match a with
  | Fin q => Fin (Qred (- q))
  | PosInf => NegInf
  | NegInf => PosInf
  | NaN => NaN
  end.

(** [a * b] *)
Definition fmul (a b : pyfloat) : pyfloat :=
  match a, b with
  | NaN, _ | _, NaN => NaN
  | Fin x, Fin y => Fin (Qred (x * y))
  | Fin x, PosInf | PosInf, Fin x =>
      match Qsign x with Gt => PosInf | Lt => NegInf | Eq => NaN end
  | Fin x, NegInf | NegInf, Fin x =>
      match Qsign x with Gt => NegInf | Lt => PosInf | Eq => NaN end
  | PosInf, PosInf | NegInf, NegInf => PosInf
  | PosInf, NegInf | NegInf, PosInf => NegInf
  end.

(** [a + b] *)
Definition fadd (a b : pyfloat) : pyfloat :=
  match a, b with
  | NaN, _ | _, NaN => NaN
  | Fin x, Fin y => Fin (Qred (x + y))
  | PosInf, NegInf | NegInf, PosInf => NaN
  | PosInf, _ | _, PosInf => PosInf
  | NegInf, _ | _, NegInf => NegInf
  end.

(** [a / 2] *)
Definition fhalf (a : pyfloat) : pyfloat :=
  match a with
  | Fin x => Fin (Qred (x / 2))
  | other => other
  end.

(** [a > b]; every comparison with NaN is false. *)
Definition fgtb (a b : pyfloat) : bool :=
  match a, b with
  | NaN, _ | _, NaN => false
  | Fin x, Fin y => match (x ?= y)%Q with Gt => true | _ => false end
  | PosInf, PosInf => false
  | PosInf, _ => true
  | NegInf, _ => false
  | Fin _, PosInf => false
  | Fin _, NegInf => true
  end.

(** [a < b] *)
Definition fltb (a b : pyfloat) : bool := fgtb b a.

(** [min(a, b)]: Python returns the first argument unless the second is
    strictly smaller. *)
Definition fmin (a b : pyfloat) : pyfloat := if fltb b a then b else a.

(** Nearest integer, ties to the even one. *)
Definition round_half_even (q : Q) : Z :=
  let fl := Qfloor q in
  match ((q - inject_Z fl) ?= 1 # 2)%Q with
  | Lt => fl
  | Gt => fl + 1
  | Eq => if Z.even fl then fl else fl + 1
  end.

(** [round(a, ndigits)] *)
Definition round_nd (a : pyfloat) (ndigits : nat) : pyfloat :=
  match a with
  | Fin q =>
      let scale := 10 ^ Z.of_nat ndigits in
      Fin (Qred (inject_Z (round_half_even (q * inject_Z scale)) / inject_Z scale))
  | other => other
  end.

(** [int(a)] on a finite float truncates toward zero. *)
Definition trunc (q : Q) : Z := Z.quot (Qnum q) (Zpos (Qden q)).

(** Decimal digits of a natural number. *)
Definition digits_of_N (n : N) : string := NilZero.string_of_uint (N.to_uint n).

(** The format spec [.0f]. *)
Definition format_0f (a : pyfloat) : string :=
  match a with
  | Fin q =>
      let body := digits_of_N (Z.to_N (Z.abs (round_half_even q))) in
      match Qsign q with Lt => String "-" body | _ => body end
  | PosInf => "inf"
  | NegInf => "-inf"
  | NaN => "nan"
  end.

(** Order on the values, for statements: [fle a b] is [a <= b]. *)
Definition fle (a b : pyfloat) : Prop :=
  match a, b with
  | NaN, _ | _, NaN => False
  | Fin x, Fin y => (x <= y)%Q
  | NegInf, _ => True
  | _, PosInf => True
  | _, _ => False
  end.

(** Numeric equality of two floats. *)
Definition feq (a b : pyfloat) : Prop :=
  match a, b with
  | Fin x, Fin y => (x == y)%Q
  | PosInf, PosInf | NegInf, NegInf => True
  | _, _ => False
  end.

End PyFloat.
Import PyFloat.

(** ** Characters and strings *)

Module PyStr.

Definition code (a : ascii) : N := N_of_ascii a.

Definition in_range (lo hi : N) (a : ascii) : bool :=
  ((lo <=? code a) && (code a <=? hi))%N.

(** [\d] of [re], and the decimal digits [float()] and [int()] accept. *)
Definition is_digit (a : ascii) : bool := in_range 48 57 a.

Definition digit_val (a : ascii) : Z := Z.of_N (code a - 48).

(** [\s] of [re] ([str.isspace]). *)
Definition is_space (a : ascii) : bool :=
  in_range 9 13 a || in_range 28 32 a || (code a =? 133)%N || (code a =? 160)%N.

(** The blanks [float()] and [int()] strip: the file, group, record and
    unit separators (28..31) are not among them. *)
Definition is_strip_space (a : ascii) : bool :=
  in_range 9 13 a || (code a =? 32)%N || (code a =? 133)%N || (code a =? 160)%N.

Definition is_upper (a : ascii) : bool :=
  in_range 65 90 a || in_range 192 214 a || in_range 216 222 a.

(** [\w] of [re]: alphanumeric or underscore. *)
Definition is_word (a : ascii) : bool :=
  in_range 48 57 a || in_range 65 90 a || (code a =? 95)%N || in_range 97 122 a
  || (code a =? 170)%N || in_range 178 179 a || (code a =? 181)%N
  || in_range 185 186 a || in_range 188 190 a
  || in_range 192 214 a || in_range 216 246 a || in_range 248 255 a.

(** [str.lower] on one character. *)
Definition lower_char (a : ascii) : ascii :=
  if is_upper a then ascii_of_N (code a + 32) else a.

Fixpoint lower (s : string) : string :=
  match s with
  | EmptyString => EmptyString
  | String a t => String (lower_char a) (lower t)
  end.

(** [s.startswith(p)], returning what follows [p]. *)
Fixpoint strip_prefix (p s : string) : option string :=
  match p, s with
  | EmptyString, _ => Some s
  | String a p', String b s' => if Ascii.eqb a b then strip_prefix p' s' else None
  | String _ _, EmptyString => None
  end.

(** [p in s] *)
Fixpoint contains (p s : string) : bool :=
  match strip_prefix p s with
  | Some _ => true
  | None => match s with
            | EmptyString => false
            | String _ t => contains p t
            end
  end.

(** [s[:n]] *)
Fixpoint take (n : nat) (s : string) : string :=
  match n, s with
  | S k, String a t => String a (take k t)
  | _, _ => EmptyString
  end.

(** [s[n:]] *)
Fixpoint drop (n : nat) (s : string) : string :=
  match n, s with
  | S k, String _ t => drop k t
  | _, _ => s
  end.

Fixpoint lstrip (s : string) : string :=
  match s with
  | String a t => if is_strip_space a then lstrip t else s
  | EmptyString => EmptyString
  end.

Fixpoint all_blank (s : string) : bool :=
  match s with
  | String a t => is_strip_space a && all_blank t
  | EmptyString => true
  end.

End PyStr.
Import PyStr.

(** ** Numeric literals read by [float()] and [int()] *)

Module Literal.

(** The rest of a [digitpart], [digit (["_"] digit)*], after its first
    digit: accumulated value, number of digits, what follows. *)
Fixpoint scan_digits (s : string) (acc : Z) (cnt : nat) : Z * nat * string :=
  match s with
  | String c t =>
      if is_digit c then scan_digits t (10 * acc + digit_val c) (S cnt)
      else if Ascii.eqb c "_" then
        match t with
        | String d t' =>
            if is_digit d then scan_digits t' (10 * acc + digit_val d) (S cnt)
            else (acc, cnt, s)
        | EmptyString => (acc, cnt, s)
        end
      else (acc, cnt, s)
  | EmptyString => (acc, cnt, s)
  end.

Definition digitpart (s : string) : option (Z * nat * string) :=
  match s with
  | String c t => if is_digit c then Some (scan_digits t (digit_val c) 1) else None
  | EmptyString => None
  end.

(** An optional sign: [true] for a minus. *)
Definition sign (s : string) : bool * string :=
  match s with
  | String "+" t => (false, t)
  | String "-" t => (true, t)
  | _ => (false, s)
  end.

(** [m * 10^e] as a rational. *)
Definition scale10 (m e : Z) : Q :=
  if 0 <=? e then inject_Z (m * 10 ^ e) else Qred (m # Z.to_pos (10 ^ (- e))).

(** [number]: [[digitpart] "." digitpart | digitpart ["."]], giving the
    digits as an integer and the number of them after the point. *)
Definition number (s : string) : option (Z * nat * string) :=
  match digitpart s with
  | Some (ip, _, r1) =>
      match r1 with
      | String "." r2 =>
          match digitpart r2 with
          | Some _ => Some (scan_digits r2 ip 0)
          | None => Some (ip, 0%nat, r2)
          end
      | _ => Some (ip, 0%nat, r1)
      end
  | None =>
      match s with
      | String "." r2 => digitpart r2
      | _ => None
      end
  end.

(** [exponent]: [("e" | "E") [sign] digitpart], optional. *)
Definition exponent (s : string) : option (Z * string) :=
  match s with
  | String c t =>
      if Ascii.eqb (lower_char c) "e" then
        let '(neg, t') := sign t in
        match digitpart t' with
        | Some (ev, _, r) => Some (if neg then - ev else ev, r)
        | None => None
        end
      else Some (0, s)
  | EmptyString => Some (0, s)
  end.

(** [infinity | nan], in any letter case. *)
Definition special (s : string) : option (pyfloat * string) :=
  match strip_prefix "inf" (lower s) with
  | Some _ =>
      match strip_prefix "inity" (lower (drop 3 s)) with
      | Some _ => Some (PosInf, drop 8 s)
      | None => Some (PosInf, drop 3 s)
      end
  | None =>
      match strip_prefix "nan" (lower s) with
      | Some _ => Some (NaN, drop 3 s)
      | None => None
      end
  end.

(** [float(s)] for a string: [None] stands for [ValueError]. *)
Definition float_of_string (s : string) : option pyfloat :=
  let '(neg, body) := sign (lstrip s) in
  let signed (v : pyfloat) := if neg then fneg v else v in
  match special body with
  | Some (v, r) => if all_blank r then Some (signed v) else None
  | None =>
      match number body with
      | Some (m, fc, r) =>
          match exponent r with
          | Some (e, r') =>
              if all_blank r' then Some (signed (Fin (Qred (scale10 m (e - Z.of_nat fc)))))
              else None
          | None => None
          end
      | None => None
      end
  end.

(** [int(s)] for a string. *)
Definition int_of_string (s : string) : option Z :=
  let '(neg, body) := sign (lstrip s) in
  match digitpart body with
  | Some (v, _, r) => if all_blank r then Some (if neg then - v else v) else None
  | None => None
  end.

End Literal.
Import Literal.

(** ** Python values, exceptions and built-ins *)

Inductive pyval :=
| PNone
| PBool (b : bool)
| PInt (z : Z)
| PFloat (f : pyfloat)
| PStr (s : string)
| PList (l : list pyval)
| PDict (d : gmap string pyval).

Abbreviation Dict := (gmap string pyval).

(** The exceptions the modelled statements can raise, with the operation
    and the offending value. [ModelError] is whatever the regression
    model raises. *)
Inductive exn :=
| TypeError (op : string) (arg : pyval)
| ValueError (op : string) (arg : pyval)
| OverflowError (op : string) (arg : pyval)
| KeyError (key : string)
| ModelError (msg : string).

Inductive py (A : Type) :=
| Ok (a : A)
| Raise (e : exn).
Arguments Ok {A} a.
Arguments Raise {A} e.

Definition bind {A B : Type} (m : py A) (k : A -> py B) : py B :=
  match m with
  | Ok a => k a
  | Raise e => Raise e
  end.

Notation "'let*' x ':=' m 'in' k" := (bind m (fun x => k))
  (at level 10, x name, m at level 100, k at level 200).

Definition raises {A : Type} (m : py A) : Prop :=
  match m with Ok _ => False | Raise _ => True end.

Definition succeeds {A : Type} (m : py A) : bool :=
  match m with Ok _ => true | Raise _ => false end.

(** [float(v)] *)
Definition py_float (v : pyval) : py pyfloat :=
  match v with
  | PFloat f => Ok f
  | PInt z => Ok (of_Z z)
  | PBool b => Ok (of_Z (if b then 1 else 0))
  | PStr s =>
      match float_of_string s with
      | Some f => Ok f
      | None => Raise (ValueError "float" v)
      end
  | PNone | PList _ | PDict _ => Raise (TypeError "float" v)
  end.

(** [int(v)] *)
Definition py_int (v : pyval) : py Z :=
  match v with
  | PInt z => Ok z
  | PBool b => Ok (if b then 1 else 0)
  | PFloat (Fin q) => Ok (trunc q)
  | PFloat NaN => Raise (ValueError "int" v)
  | PFloat _ => Raise (OverflowError "int" v)
  | PStr s =>
      match int_of_string s with
      | Some z => Ok z
      | None => Raise (ValueError "int" v)
      end
  | PNone | PList _ | PDict _ => Raise (TypeError "int" v)
  end.

(** [v > 0] *)
Definition py_gt0 (v : pyval) : py bool :=
  match v with
  | PInt z => Ok (0 <? z)
  | PBool b => Ok b
  | PFloat f => Ok (fgtb f (of_Z 0))
  | PNone | PStr _ | PList _ | PDict _ => Raise (TypeError ">" v)
  end.

(** [d.get(key, default)] on a dict read from JSON. *)
Definition get (d : Dict) (key : string) (default : pyval) : pyval :=
  match d !! key with
  | Some v => v
  | None => default
  end.

(** [key in d] *)
Definition has_key (d : Dict) (key : string) : bool :=
  match d !! key with
  | Some _ => true
  | None => false
  end.

(** [d[key]] *)
Definition item {V : Type} (d : gmap string V) (key : string) : py V :=
  match d !! key with
  | Some v => Ok v
  | None => Raise (KeyError key)
  end.

(** [table.get(k, default)] where the table has string keys and [k] is
    any value: a list or a dict cannot be hashed, and no other value
    equals a string. *)
Definition get_by_value {V : Type} (table : gmap string V) (k : pyval) (default : V)
  : py V :=
  match k with
  | PStr s => Ok (match table !! s with Some v => v | None => default end)
  | PList _ | PDict _ => Raise (TypeError "hash" k)
  | PNone | PBool _ | PInt _ | PFloat _ => Ok default
  end.

(** A dict display [{k1: v1, ...}]. *)
Definition dict_of (l : list (string * pyval)) : Dict := list_to_map l.

(** ** Emission factors *)

(** [EMISSION_FACTORS], kg CO2 per unit. *)
Definition EMISSION_FACTORS : gmap string pyfloat :=
  list_to_map
    [ ("electricity_grid", Fin 0.416);
      ("natural_gas", Fin 0.202);
      ("gasoline", Fin 2.31);
      ("diesel", Fin 2.68);
      ("coal", Fin 0.820);
      ("solar", Fin 0.041);
      ("wind", Fin 0.011);
      ("hydro", Fin 0.024) ].

(** ** CarbonCalculator *)

(** The row [[kWh, household_size, 1.0, 0.8]] handed to the model. *)
Record FeatureVector := {
  fv_kwh : pyfloat;
  fv_household_size : Z;
  fv_region_factor : pyfloat;
  fv_efficiency : pyfloat
}.

Module CarbonCalculator.

(** [calculate_confidence] *)
Definition calculate_confidence (data : Dict) : py pyfloat :=
  let confidence := Fin 0.5 in
  let* quantity_given :=
    (if has_key data "kWh" then
       let* v := item data "kWh" in py_gt0 v
     else Ok false) in
  let confidence := if quantity_given then fadd confidence (Fin 0.2) else confidence in
  let confidence := if has_key data "type" then fadd confidence (Fin 0.1) else confidence in
  let confidence :=
    if has_key data "household_size" then fadd confidence (Fin 0.1) else confidence in
  let confidence := if has_key data "region" then fadd confidence (Fin 0.1) else confidence in
  Ok (fmin confidence (Fin 1.0)).

(** One entry of the savings dict. *)
Definition savings_entry (saved grid : pyfloat) (effort : string) : pyval :=
  PDict (dict_of
    [ ("kwh_saved", PFloat (round_nd saved 1));
      ("co2_saved", PFloat (round_nd (fmul saved grid) 2));
      ("cost_easy", PStr effort) ]).

(** [calculate_savings_potential] *)
Definition calculate_savings_potential (data : Dict) : py Dict :=
  let* current_kwh := py_float (get data "kWh" (PInt 0)) in
  let led_savings := fmul current_kwh (Fin 0.15) in
  let smart_thermostat := fmul current_kwh (Fin 0.12) in
  let efficient_appliances := fmul current_kwh (Fin 0.20) in
  let* grid := item EMISSION_FACTORS "electricity_grid" in
  Ok (dict_of
    [ ("led_lighting", savings_entry led_savings grid "Easy");
      ("smart_thermostat", savings_entry smart_thermostat grid "Medium");
      ("efficient_appliances", savings_entry efficient_appliances grid "Hard") ]).

(** One recommendation dict. *)
Definition recommendation (title description impact effort : string)
    (saved : pyfloat) : pyval :=
  PDict (dict_of
    [ ("title", PStr title);
      ("description", PStr description);
      ("impact", PStr impact);
      ("effort", PStr effort);
      ("potential_savings", PStr (format_0f saved +:+ " kWh/month")) ]).

Definition high_usage (kwh : pyfloat) : pyval :=
  recommendation "High Energy Usage Detected"
    "Consider upgrading to energy-efficient appliances" "High" "Medium"
    (fmul kwh (Fin 0.2)).

Definition led_upgrade (kwh : pyfloat) : pyval :=
  recommendation "LED Lighting Upgrade"
    "Replace incandescent bulbs with LED lighting" "Medium" "Easy"
    (fmul kwh (Fin 0.15)).

Definition smart_thermostat (kwh : pyfloat) : pyval :=
  recommendation "Smart Thermostat"
    "Install a programmable smart thermostat" "Medium" "Medium"
    (fmul kwh (Fin 0.12)).

(** [generate_recommendations]; the [co2_amount] argument is not used. *)
Definition generate_recommendations (data : Dict) (co2_amount : pyfloat)
  : py (list pyval) :=
  let* kwh := py_float (get data "kWh" (PInt 0)) in
  let recommendations := [] in
  let recommendations :=
    if fgtb kwh (of_Z 1000) then recommendations ++ [high_usage kwh]
    else recommendations in
  let recommendations :=
    if fgtb kwh (of_Z 500) then recommendations ++ [led_upgrade kwh]
    else recommendations in
  let recommendations := recommendations ++ [smart_thermostat kwh] in
  Ok recommendations.

Section Engine.

(** [self.model.predict(features)[0]] *)
Variable predict : FeatureVector -> py pyfloat.
(** [str(e)] *)
Variable str_exn : exn -> string.

(** The [try] block of [calculate_from_energy_data]. *)
Definition estimate (energy_data : Dict) : py Dict :=
  let* kwh := py_float (get energy_data "kWh" (PInt 0)) in
  let energy_type := get energy_data "type" (PStr "electricity_grid") in
  let* household_size := py_int (get energy_data "household_size" (PInt 2)) in
  let region := get energy_data "region" (PStr "US") in
  let* grid := item EMISSION_FACTORS "electricity_grid" in
  let* emission_factor := get_by_value EMISSION_FACTORS energy_type grid in
  let basic_co2 := fmul kwh emission_factor in
  let features :=
    {| fv_kwh := kwh; fv_household_size := household_size;
       fv_region_factor := Fin 1.0; fv_efficiency := Fin 0.8 |} in
  let* ml_co2 := predict features in
  let final_co2 := fhalf (fadd basic_co2 ml_co2) in
  let* confidence := calculate_confidence energy_data in
  let* savings_potential := calculate_savings_potential energy_data in
  let* recommendations := generate_recommendations energy_data final_co2 in
  Ok (dict_of
    [ ("co2_kg", PFloat (round_nd final_co2 2));
      ("confidence", PFloat confidence);
      ("breakdown", PDict (dict_of
         [ ("energy_type", energy_type);
           ("consumption_kwh", PFloat kwh);
           ("emission_factor", PFloat emission_factor);
           ("basic_calculation", PFloat (round_nd basic_co2 2));
           ("ml_enhanced", PFloat (round_nd ml_co2 2)) ]));
      ("savings_potential", PDict savings_potential);
      ("recommendations", PList recommendations) ]).

(** The dict returned by the [except] clause. *)
Definition error_result (e : exn) : Dict :=
  dict_of
    [ ("co2_kg", PInt 0);
      ("confidence", PInt 0);
      ("error", PStr (str_exn e)) ].

(** [calculate_from_energy_data] *)
Definition calculate_from_energy_data (energy_data : Dict) : Dict :=
  match estimate energy_data with
  | Ok r => r
  | Raise e => error_result e
  end.

End Engine.

End CarbonCalculator.
Import CarbonCalculator.


(** ** The [re] searches of the bill parser *)

Module Re.

(** A set of characters: [\d], [\s], [\w] or one literal character. *)
Inductive cset :=
| Digit
| Space
| Word
| Char (c : ascii).

(** The patterns of this program: every quantifier except one sits on a
    single character or class, and the exception is an optional
    non-capturing group. Each pattern has one capturing group. *)
Inductive regex :=
| Eps
| One (c : cset)
| Rep (c : cset) (lo : nat) (hi : option nat)
| Cat (r1 r2 : regex)
| Opt (r : regex)
| Group (r : regex).

Definition plus (c : cset) : regex := Rep c 1 None.
Definition star (c : cset) : regex := Rep c 0 None.
Definition maybe (c : cset) : regex := Rep c 0 (Some 1%nat).

Fixpoint lit (s : string) : regex :=
  match s with
  | EmptyString => Eps
  | String a EmptyString => One (Char a)
  | String a t => Cat (One (Char a)) (lit t)
  end.

(** Membership; under [re.IGNORECASE] a literal matches both of its
    letter cases. *)
Definition cset_mem (ignorecase : bool) (c : cset) (a : ascii) : bool :=
  match c with
  | Digit => is_digit a
  | Space => is_space a
  | Word => is_word a
  | Char p =>
      if ignorecase then Ascii.eqb (lower_char a) (lower_char p) else Ascii.eqb a p
  end.

Definition dec_bound (hi : option nat) : option nat :=
  match hi with
  | Some n => Some (Nat.pred n)
  | None => None
  end.

(** Length of the longest prefix of [s] inside [c], at most [hi]. *)
Fixpoint run (ignorecase : bool) (c : cset) (hi : option nat) (s : string) : nat :=
  match hi with
  | Some O => O
  | _ =>
      match s with
      | String a t =>
          if cset_mem ignorecase c a then S (run ignorecase c (dec_bound hi) t) else O
      | EmptyString => O
      end
  end.

(** An outcome of matching at the start of a string. *)
Record outcome := {
  consumed : string;
  rest : string;
  group1 : option string
}.

Definition or_else (a b : option string) : option string :=
  match a with
  | Some _ => a
  | None => b
  end.

(** Every way [r] matches a prefix of [s], in the order the backtracking
    matcher tries them: a greedy quantifier tries the longest run first. *)
Fixpoint matches (ignorecase : bool) (r : regex) (s : string) : list outcome :=
  match r with
  | Eps => [ {| consumed := EmptyString; rest := s; group1 := None |} ]
  | One c =>
      match s with
      | String a t =>
          if cset_mem ignorecase c a
          then [ {| consumed := String a EmptyString; rest := t; group1 := None |} ]
          else []
      | EmptyString => []
      end
  | Rep c lo hi =>
      map (fun k => {| consumed := take k s; rest := drop k s; group1 := None |})
          (rev (seq lo (S (run ignorecase c hi s) - lo)))
  | Cat r1 r2 =>
      flat_map
        (fun x =>
           map (fun y => {| consumed := consumed x +:+ consumed y;
                            rest := rest y;
                            group1 := or_else (group1 y) (group1 x) |})
               (matches ignorecase r2 (rest x)))
        (matches ignorecase r1 s)
  | Opt r' =>
      matches ignorecase r' s
        ++ [ {| consumed := EmptyString; rest := s; group1 := None |} ]
  | Group r' =>
      map (fun x => {| consumed := consumed x; rest := rest x;
                       group1 := Some (consumed x) |})
          (matches ignorecase r' s)
  end.

(** [re.match]: the first outcome. *)
Definition match_here (ignorecase : bool) (r : regex) (s : string) : option outcome :=
  head (matches ignorecase r s).

(** [re.search]: the match at the leftmost position that has one. *)
Fixpoint search (ignorecase : bool) (r : regex) (s : string) : option outcome :=
  match match_here ignorecase r s with
  | Some x => Some x
  | None =>
      match s with
      | String _ t => search ignorecase r t
      | EmptyString => None
      end
  end.

(** [match.group(1)] *)
Definition group (x : outcome) : pyval :=
  match group1 x with
  | Some g => PStr g
  | None => PNone
  end.

(** [re.findall] for a pattern with one group: the group of each match,
    left to right, the scan resuming where the previous match ended.
    [skip] counts the positions still inside the previous match. *)
Fixpoint findall_from (r : regex) (s : string) (skip : nat) : list pyval :=
  match skip with
  | S k =>
      match s with
      | String _ t => findall_from r t k
      | EmptyString => []
      end
  | O =>
      match match_here false r s with
      | Some x =>
          group x ::
            match s with
            | String _ t => findall_from r t (Nat.pred (String.length (consumed x)))
            | EmptyString => []
            end
      | None =>
          match s with
          | String _ t => findall_from r t 0
          | EmptyString => []
          end
      end
  end.

Definition findall (r : regex) (s : string) : list pyval := findall_from r s 0.

End Re.
Import Re.

(** ** ImageAnalyzer *)

(** A number held by the parsed-bill dict: the [int] it starts with or
    the [float] written over it. *)
Inductive pynum :=
| NInt (z : Z)
| NFloat (f : pyfloat).

Definition num_float (n : pynum) : pyfloat :=
  match n with
  | NInt z => of_Z z
  | NFloat f => f
  end.

Definition num_val (n : pynum) : pyval :=
  match n with
  | NInt z => PInt z
  | NFloat f => PFloat f
  end.

(** [n + x] for a float [x] *)
Definition num_add (n : pynum) (x : pyfloat) : pynum := NFloat (fadd (num_float n) x).

(** [n > 0] *)
Definition num_gt0 (n : pynum) : bool := fgtb (num_float n) (of_Z 0).

(** [min(n, x)] for a float [x] *)
Definition num_min (n : pynum) (x : pyfloat) : pynum :=
  if fltb x (num_float n) then NFloat x else n.

(** [str(v)] inside the f-string of the service period. *)
Definition str_of (v : pyval) : string :=
  match v with
  | PStr s => s
  | _ => EmptyString
  end.

Module ImageAnalyzer.

(** The dict [result] of [parse_utility_bill]. *)
Record bill := {
  kwh : pynum;
  amount : pynum;
  service_period : string;
  provider : string;
  confidence : pynum
}.

Definition initial : bill :=
  {| kwh := NInt 0; amount := NInt 0; service_period := EmptyString;
     provider := EmptyString; confidence := NInt 0 |}.

(** [(\d+(?:\.\d+)?)] *)
Definition number_group : regex :=
  Group (Cat (plus Digit) (Opt (Cat (One (Char ".")) (plus Digit)))).

Definition kwh_patterns : list regex :=
  [ (* (\d+(?:\.\d+)?)\s*kWh *)
    Cat number_group (Cat (star Space) (lit "kWh"));
    (* (\d+(?:\.\d+)?)\s*KWH *)
    Cat number_group (Cat (star Space) (lit "KWH"));
    (* Total\s*Usage:?\s*(\d+(?:\.\d+)?) *)
    Cat (lit "Total") (Cat (star Space) (Cat (lit "Usage")
      (Cat (maybe (Char ":")) (Cat (star Space) number_group))));
    (* Energy\s*Used:?\s*(\d+(?:\.\d+)?) *)
    Cat (lit "Energy") (Cat (star Space) (Cat (lit "Used")
      (Cat (maybe (Char ":")) (Cat (star Space) number_group)))) ].

Definition amount_patterns : list regex :=
  [ (* \$(\d+(?:\.\d+)?) *)
    Cat (One (Char "$")) number_group;
    (* Total\s*Amount:?\s*\$?(\d+(?:\.\d+)?) *)
    Cat (lit "Total") (Cat (star Space) (Cat (lit "Amount")
      (Cat (maybe (Char ":")) (Cat (star Space)
        (Cat (maybe (Char "$")) number_group)))));
    (* Amount\s*Due:?\s*\$?(\d+(?:\.\d+)?) *)
    Cat (lit "Amount") (Cat (star Space) (Cat (lit "Due")
      (Cat (maybe (Char ":")) (Cat (star Space)
        (Cat (maybe (Char "$")) number_group))))) ].

(** [(\w+\s+\d{1,2},?\s+\d{4})] *)
Definition date_pattern : regex :=
  Group (Cat (plus Word) (Cat (plus Space) (Cat (Rep Digit 1 (Some 2%nat))
    (Cat (maybe (Char ",")) (Cat (plus Space) (Rep Digit 4 (Some 4%nat))))))).

Definition providers : list string :=
  [ "PG&E"; "ConEd"; "Duke Energy"; "Southern Company"; "Electric Company" ].

(** The loop [for pattern in patterns: ... if match: ... break]: the
    match of the first pattern that has one. *)
Fixpoint first_match (patterns : list regex) (text : string) : option outcome :=
  match patterns with
  | [] => None
  | pattern :: others =>
      match search true pattern text with
      | Some x => Some x
      | None => first_match others text
      end
  end.

Definition extract_kwh (text : string) (result : bill) : py bill :=
  match first_match kwh_patterns text with
  | Some x =>
      let* v := py_float (group x) in
      Ok {| kwh := NFloat v; amount := amount result;
            service_period := service_period result; provider := provider result;
            confidence := num_add (confidence result) (Fin 0.3) |}
  | None => Ok result
  end.

Definition extract_amount (text : string) (result : bill) : py bill :=
  match first_match amount_patterns text with
  | Some x =>
      let* v := py_float (group x) in
      Ok {| kwh := kwh result; amount := NFloat v;
            service_period := service_period result; provider := provider result;
            confidence := num_add (confidence result) (Fin 0.2) |}
  | None => Ok result
  end.

Definition extract_period (text : string) (result : bill) : bill :=
  match findall date_pattern text with
  | d0 :: d1 :: _ =>
      {| kwh := kwh result; amount := amount result;
         service_period := str_of d0 +:+ " - " +:+ str_of d1;
         provider := provider result;
         confidence := num_add (confidence result) (Fin 0.2) |}
  | _ => result
  end.

Fixpoint first_provider (candidates : list string) (text : string) : option string :=
  match candidates with
  | [] => None
  | p :: others =>
      if contains (lower p) (lower text) then Some p else first_provider others text
  end.

Definition extract_provider (text : string) (result : bill) : bill :=
  match first_provider providers text with
  | Some p =>
      {| kwh := kwh result; amount := amount result;
         service_period := service_period result; provider := p;
         confidence := num_add (confidence result) (Fin 0.1) |}
  | None => result
  end.

Definition clamp (result : bill) : bill :=
  {| kwh := kwh result; amount := amount result;
     service_period := service_period result; provider := provider result;
     confidence := num_min (confidence result) (Fin 1.0) |}.

(** [parse_utility_bill]: an exception leaves [result] as the statements
    before it made it. *)
Definition parse_utility_bill (text : string) : bill :=
  let result := initial in
  match extract_kwh text result with
  | Raise _ => result
  | Ok result =>
      match extract_amount text result with
      | Raise _ => result
      | Ok result =>
          clamp (extract_provider text (extract_period text result))
      end
  end.

End ImageAnalyzer.
Import ImageAnalyzer.

(** ** The analysis of an uploaded bill *)

(** What [analyze_image] answers on success; the time stamp is left out. *)
Record analysis := {
  ocr_text : string;
  parsed_data : bill;
  carbon_analysis : option Dict
}.

(** [analyze_image], from the text that [extract_text_from_image]
    recognised in the upload. *)
Definition analyze_image (predict : FeatureVector -> py pyfloat)
    (str_exn : exn -> string) (text : string) : analysis :=
  let parsed_data := parse_utility_bill text in
  let carbon_result :=
    if num_gt0 (kwh parsed_data)
    then Some (calculate_from_energy_data predict str_exn
                 (dict_of [ ("kWh", num_val (kwh parsed_data));
                            ("type", PStr "electricity_grid") ]))
    else None in
  {| ocr_text := take 500 text;
     parsed_data := parsed_data;
     carbon_analysis := carbon_result |}.


(** ** The default model's training surface *)

(** The label [create_default_model] gives a synthetic sample
    [[kWh, household_size, region_factor, appliance_efficiency]]. *)
Definition training_label (kwh household_size region_factor efficiency : pyfloat)
  : pyfloat :=
  fmul (fmul (fmul (fmul kwh (Fin 0.416))
                   (fadd (Fin 1) (fmul household_size (Fin 0.1))))
             region_factor)
       (fadd (Fin 2) (fneg efficiency)).

(** A predictor that answers the training label of its row: the surface
    the default forest is fitted to. It stands for the model when the
    engine is run on a concrete input. *)
Definition label_model (x : FeatureVector) : py pyfloat :=
  Ok (training_label (fv_kwh x) (of_Z (fv_household_size x))
        (fv_region_factor x) (fv_efficiency x)).

(** The class name of an exception, standing for its message where the
    engine is run on a concrete input. *)
Definition exn_name (e : exn) : string :=
  match e with
  | TypeError _ _ => "TypeError"
  | ValueError _ _ => "ValueError"
  | OverflowError _ _ => "OverflowError"
  | KeyError _ => "KeyError"
  | ModelError _ => "ModelError"
  end.

(** ** Vocabulary of the statements *)

(** [v[key]] for a value that is a dict. *)
Definition field (v : option pyval) (key : string) : option pyval :=
  match v with
  | Some (PDict d) => d !! key
  | _ => None
  end.

(** The number a value holds, as a float. *)
Definition number_of (v : option pyval) : option pyfloat :=
  match v with
  | Some (PFloat f) => Some f
  | Some (PInt z) => Some (of_Z z)
  | _ => None
  end.

(** Values that can be dictionary keys. *)
Definition hashable (v : pyval) : Prop :=
  match v with
  | PList _ | PDict _ => False
  | _ => True
  end.

(** The keys of a successful estimation that an error result lacks. *)
Definition has_estimate_shape (r : Dict) : Prop :=
  is_Some (r !! "breakdown") /\ is_Some (r !! "savings_potential")
  /\ is_Some (r !! "recommendations").

(** A float that is a positive finite number. *)
Definition fpos (a : pyfloat) : Prop :=
  match a with
  | Fin c => (0 < c)%Q
  | _ => False
  end.

(** [a] and [b] differ by at most [tol]. *)
Definition within (tol : Q) (a b : pyfloat) : Prop :=
  match a, b with
  | Fin x, Fin y => (Qabs (x - y) <= tol)%Q
  | PosInf, PosInf | NegInf, NegInf => True
  | _, _ => False
  end.

(** The [co2_kg] of [r] is the mean of the formula estimate and of the
    model's prediction for the quantity [q] of [data], rounded to two
    decimals. *)
Definition co2_is_mean (predict : FeatureVector -> py pyfloat) (data : Dict)
    (q : pyfloat) (r : Dict) : Prop :=
  exists (f : pyfloat) (hs : Z) (p : pyfloat),
    get_by_value EMISSION_FACTORS (get data "type" (PStr "electricity_grid")) (Fin 0.416)
      = Ok f
    /\ py_int (get data "household_size" (PInt 2)) = Ok hs
    /\ predict {| fv_kwh := q; fv_household_size := hs;
                  fv_region_factor := Fin 1.0; fv_efficiency := Fin 0.8 |} = Ok p
    /\ r !! "co2_kg" = Some (PFloat (round_nd (fhalf (fadd (fmul q f) p)) 2))
    /\ within (1 # 200) (round_nd (fhalf (fadd (fmul q f) p)) 2)
              (fhalf (fadd (fmul q f) p)).


(** The titles of a list of recommendations. *)
Definition titles (l : list pyval) : list (option pyval) :=
  map (fun r => field (Some r) "title") l.


(** No match of [r] starts at any of the first [n] positions of [s]. *)
Fixpoint unmatched_prefix (ignorecase : bool) (r : regex) (s : string) (n : nat) : bool :=
  match n with
  | O => true
  | S k =>
      match match_here ignorecase r s with
      | Some _ => false
      | None =>
          match s with
          | String _ t => unmatched_prefix ignorecase r t k
          | EmptyString => true
          end
      end
  end.

Definition starts_with_digit (s : string) : bool :=
  match s with
  | String c _ => is_digit c
  | EmptyString => false
  end.

(** [(\d+(?:\.\d+)?)\s*kWh], the first of [kwh_patterns]. *)
Definition kwh_unit_pattern : regex :=
  Cat number_group (Cat (star Space) (lit "kWh")).

(** [\$(\d+(?:\.\d+)?)], the first of [amount_patterns]. *)
Definition dollar_pattern : regex := Cat (One (Char "$")) number_group.

(** ** Inputs used as examples *)

Definition bill_with_earlier_reading : string :=
  "Previous: 700 kWh. Total Usage: 850 kWh. Amount Due: $120.50. January 1, 2024 - January 31, 2024".

Definition sample_bill : string :=
  "Electric Company Total Usage: 850 kWh Amount Due: $120.50 Service: January 1, 2024 to January 31, 2024".

Definition quantity_not_numeric : Dict := dict_of [ ("kWh", PStr "abc") ].

Definition quantity_as_text : Dict := dict_of [ ("kWh", PStr "500") ].

Definition household_not_numeric : Dict :=
  dict_of [ ("kWh", PInt 100); ("household_size", PStr "many") ].

Definition kind_is_a_list : Dict :=
  dict_of [ ("kWh", PInt 100); ("type", PList [PStr "coal"]) ].

Definition coal_1000 : Dict := dict_of [ ("kWh", PInt 1000); ("type", PStr "coal") ].

Definition full_record : Dict :=
  dict_of [ ("kWh", PInt 1500); ("type", PStr "solar");
            ("household_size", PInt 3); ("region", PStr "EU") ].


(** ** Vocabulary of the further properties *)


(** The five keys of a successful estimation. *)
Definition estimate_keys : gset string :=
  {[ "co2_kg"; "confidence"; "breakdown"; "savings_potential"; "recommendations" ]}.

(** A string of decimal digits. *)
Fixpoint all_digits (s : string) : bool :=
  match s with
  | EmptyString => true
  | String c t => is_digit c && all_digits t
  end.

(** The value of the digits [d] read after the value [acc]. *)
Fixpoint digits_value (d : string) (acc : Z) : Z :=
  match d with
  | EmptyString => acc
  | String c t => digits_value t (10 * acc + digit_val c)
  end.

(** The texts [\d+(?:\.\d+)?] matches: digits, or digits, a point and
    digits. *)
Definition number_text (g : string) : Prop :=
  exists d, d <> EmptyString /\ all_digits d = true
    /\ (g = d
        \/ exists d', d' <> EmptyString /\ all_digits d' = true
                      /\ g = d +:+ String "." d').

(** A pattern without a capturing group. *)
Fixpoint groupless (r : regex) : bool :=
  match r with
  | Eps | One _ | Rep _ _ _ => true
  | Cat r1 r2 => groupless r1 && groupless r2
  | Opt r' => groupless r'
  | Group _ => false
  end.

(** A pattern whose group is [number_group], whatever stands around it. *)
Inductive numbered : regex -> Prop :=
| numbered_here : numbered number_group
| numbered_right (r1 r2 : regex) : numbered r2 -> numbered (Cat r1 r2)
| numbered_left (r1 r2 : regex) :
    numbered r1 -> groupless r2 = true -> numbered (Cat r1 r2).


(** Whether an option holds a value. *)
Definition found {A : Type} (o : option A) : bool :=
  match o with
  | Some _ => true
  | None => false
  end.

(** [kwh_patterns] without its second pattern, the one spelled [KWH]. *)
Definition kwh_patterns_without_upper : list regex :=
  match kwh_patterns with
  | first :: _ :: others => first :: others
  | short => short
  end.

(** ** The HTTP endpoints *)

(** What [request.get_json()] gives an endpoint: the decoded body, or the
    exception Flask raises for a body it cannot decode. *)
Inductive request_json :=
| Decoded (v : pyval)
| Undecodable (message : string).

(** The exceptions an endpoint can see: those of the engine, the
    [AttributeError] of calling [.get] on a value that is not a dict, and
    the one of an undecodable body. *)
Inductive endpoint_exn :=
| EngineError (e : exn)
| AttributeError (v : pyval) (attr : string)
| BadBody (message : string).

(** A JSON response and its status code. *)
Record response := {
  status : nat;
  body : Dict
}.

(** The parsed bill as the dict the parser returns. *)
Definition bill_dict (b : bill) : Dict :=
  dict_of
    [ ("kwh", num_val (kwh b));
      ("amount", num_val (amount b));
      ("service_period", PStr (service_period b));
      ("provider", PStr (provider b));
      ("confidence", num_val (confidence b)) ].

(** [extract_text_from_image], from the outcome of opening, preprocessing
    and recognising the image: any exception gives the empty text. *)
Definition extract_text_from_image (recognised : py string) : string :=
  match recognised with
  | Ok text => text
  | Raise _ => EmptyString
  end.

Module Endpoint.

Section Endpoints.

Variable predict : FeatureVector -> py pyfloat.
(** [str(e)] *)
Variable str_of : endpoint_exn -> string.
(** [datetime.now().isoformat()] *)
Variable now : string.

(** [v.get(key, default)] for any value [v]. *)
Definition value_get (v : pyval) (key : string) (default : pyval)
  : endpoint_exn + pyval :=
  match v with
  | PDict d => inr (get d key default)
  | _ => inl (AttributeError v "get")
  end.

(** [calculate_from_energy_data] on whatever the body decoded to: on a
    value that is not a dict the first statement of the [try] block
    raises [AttributeError], which the [except] clause catches. *)
Definition calculate_from_energy_data_on (energy_data : pyval) : Dict :=
  match energy_data with
  | PDict d => calculate_from_energy_data predict (fun e => str_of (EngineError e)) d
  | _ =>
      dict_of
        [ ("co2_kg", PInt 0);
          ("confidence", PInt 0);
          ("error", PStr (str_of (AttributeError energy_data "get"))) ]
  end.

(** The answer of an endpoint's [except] clause. *)
Definition failure (e : endpoint_exn) : response :=
  {| status := 500;
     body := dict_of [ ("success", PBool false); ("error", PStr (str_of e)) ] |}.

(** [calculate_carbon] *)
Definition calculate_carbon (request : request_json) : response :=
  match request with
  | Undecodable message => failure (BadBody message)
  | Decoded data =>
      let result := calculate_from_energy_data_on data in
      {| status := 200;
         body := dict_of [ ("success", PBool true);
                           ("result", PDict result);
                           ("timestamp", PStr now) ] |}
  end.

(** [get_recommendations]; the second argument of
    [generate_recommendations] is read from the profile and not used. *)
Definition get_recommendations (request : request_json) : response :=
  match request with
  | Undecodable message => failure (BadBody message)
  | Decoded data =>
      match value_get data "user_profile" (PDict ∅) with
      | inl e => failure e
      | inr user_profile =>
          match value_get data "recent_actions" (PList []) with
          | inl e => failure e
          | inr recent_actions =>
              match value_get user_profile "current_co2" (PInt 0) with
              | inl e => failure e
              | inr current_co2 =>
                  match user_profile with
                  | PDict profile =>
                      match generate_recommendations profile (of_Z 0) with
                      | Ok recommendations =>
                          {| status := 200;
                             body := dict_of [ ("success", PBool true);
                                               ("recommendations", PList recommendations);
                                               ("timestamp", PStr now) ] |}
                      | Raise e => failure (EngineError e)
                      end
                  | _ => failure (AttributeError user_profile "get")
                  end
              end
          end
      end
  end.

(** [analyze_image] as an endpoint: [file] is the name of the part
    [request.files['file']] when there is one, [saved] the outcome of
    [file.save], [recognised] the outcome of the recognition of the saved
    image. The removal of the saved file is an effect on the file system
    and is not part of the answer. *)
Definition analyze_image_upload (file : option string) (saved : endpoint_exn + unit)
    (recognised : py string) : response :=
  match file with
  | None =>
      {| status := 400;
         body := dict_of [ ("success", PBool false); ("error", PStr "No file uploaded") ] |}
  | Some filename =>
      if String.eqb filename EmptyString then
        {| status := 400;
           body := dict_of [ ("success", PBool false);
                             ("error", PStr "No file selected") ] |}
      else
        match saved with
        | inl e => failure e
        | inr _ =>
            let text := extract_text_from_image recognised in
            let a := analyze_image predict (fun e => str_of (EngineError e)) text in
            {| status := 200;
               body := dict_of
                 [ ("success", PBool true);
                   ("ocr_text", PStr (ocr_text a));
                   ("parsed_data", PDict (bill_dict (parsed_data a)));
                   ("carbon_analysis",
                     match carbon_analysis a with
                     | Some r => PDict r
                     | None => PNone
                     end);
                   ("timestamp", PStr now) ] |}
        end
  end.

End Endpoints.

End Endpoint.
Import Endpoint.

(** [g] occurs in [s]. *)
Definition substring_of (g s : string) : Prop :=
  exists pre post, s = pre +:+ g +:+ post.

(** ** Facts about the float model *)

Lemma Qred_eq (q : Q) : (Qred q == q)%Q.
Proof. apply Qred_correct. Qed.

Lemma round_half_even_close (q : Q) :
  (Qabs (inject_Z (round_half_even q) - q) <= 1 # 2)%Q.
Proof.
  unfold round_half_even.
  pose proof (Qfloor_le q) as Hlo.
  pose proof (Qlt_floor q) as Hhi.
  set (fl := Qfloor q) in *.
  assert (Hhi' : (q < inject_Z fl + 1)%Q).
  { rewrite inject_Z_plus in Hhi. exact Hhi. }
  apply Qabs_Qle_condition.
  destruct (Qcompare_spec (q - inject_Z fl) (1 # 2)) as [He | Hl | Hg].
  - destruct (Z.even fl).
    + split; lra.
    + rewrite inject_Z_plus. change (inject_Z 1) with 1%Q. split; lra.
  - split; lra.
  - rewrite inject_Z_plus. change (inject_Z 1) with 1%Q. split; lra.
Qed.

Lemma round_half_even_nonneg (q : Q) : (0 <= q)%Q -> 0 <= round_half_even q.
Proof.
  intros Hq. unfold round_half_even.
  assert (Hfl : 0 <= Qfloor q).
  { change 0 with (Qfloor 0). apply Qfloor_resp_le. exact Hq. }
  destruct (_ ?= _)%Q; [destruct (Z.even _) | |]; lia.
Qed.

Lemma fle_0_inv (a : pyfloat) :
  fle (Fin 0) a -> a = PosInf \/ exists x, a = Fin x /\ (0 <= x)%Q.
Proof. destruct a; simpl; intros H; try contradiction; eauto. Qed.

Lemma fmul_nonneg (a f : pyfloat) : fle (Fin 0) a -> fpos f -> fle (Fin 0) (fmul a f).
Proof.
  intros Ha Hf. destruct f as [c | | |]; simpl in Hf; try contradiction.
  destruct (fle_0_inv a Ha) as [-> | (x & -> & Hx)]; simpl.
  - unfold Qsign. destruct (Qcompare_spec c 0) as [He | Hl | Hg]; simpl;
      first [exact I | lra].
  - rewrite Qred_eq. apply Qmult_le_0_compat; lra.
Qed.

Lemma fadd_nonneg (a b : pyfloat) : fle (Fin 0) a -> fle (Fin 0) b -> fle (Fin 0) (fadd a b).
Proof.
  intros Ha Hb.
  destruct (fle_0_inv a Ha) as [-> | (x & -> & Hx)];
    destruct (fle_0_inv b Hb) as [-> | (y & -> & Hy)]; simpl; try exact I.
  rewrite Qred_eq. lra.
Qed.

Lemma fhalf_nonneg (a : pyfloat) : fle (Fin 0) a -> fle (Fin 0) (fhalf a).
Proof.
  intros Ha. destruct (fle_0_inv a Ha) as [-> | (x & -> & Hx)]; simpl; try exact I.
  rewrite Qred_eq. unfold Qdiv. change (/ 2)%Q with (1 # 2)%Q. lra.
Qed.

Lemma round_nd_nonneg (a : pyfloat) (n : nat) : fle (Fin 0) a -> fle (Fin 0) (round_nd a n).
Proof.
  intros Ha. destruct (fle_0_inv a Ha) as [-> | (x & -> & Hx)]; simpl; try exact I.
  rewrite Qred_eq.
  assert (Hs : 0 < 10 ^ Z.of_nat n) by (apply Z.pow_pos_nonneg; lia).
  assert (Hs' : (0 < inject_Z (10 ^ Z.of_nat n))%Q).
  { change 0%Q with (inject_Z 0). rewrite <- Zlt_Qlt. exact Hs. }
  apply Qle_shift_div_l; [exact Hs' |].
  rewrite Qmult_0_l. change 0%Q with (inject_Z 0). rewrite <- Zle_Qle.
  apply round_half_even_nonneg. apply Qmult_le_0_compat; lra.
Qed.

(** Rounding to two decimals moves a value by at most half a cent. *)
Lemma round_2_within (a : pyfloat) : a <> NaN -> within (1 # 200) (round_nd a 2) a.
Proof.
  destruct a as [q | | |]; intros Hn; try exact I; try congruence.
  unfold round_nd, within. rewrite Qred_eq.
  change (inject_Z (10 ^ Z.of_nat 2)) with 100%Q.
  pose proof (round_half_even_close (q * 100)) as H.
  apply Qabs_Qle_condition in H. apply Qabs_Qle_condition.
  set (r := inject_Z (round_half_even (q * 100))) in *.
  unfold Qdiv. change (/ 100)%Q with (1 # 100)%Q. split; lra.
Qed.

(** Rounding to one decimal moves a value by at most a twentieth. *)
Lemma round_1_within (a : pyfloat) : a <> NaN -> within (1 # 20) (round_nd a 1) a.
Proof.
  destruct a as [q | | |]; intros Hn; try exact I; try congruence.
  unfold round_nd, within. rewrite Qred_eq.
  change (inject_Z (10 ^ Z.of_nat 1)) with 10%Q.
  pose proof (round_half_even_close (q * 10)) as H.
  apply Qabs_Qle_condition in H. apply Qabs_Qle_condition.
  set (r := inject_Z (round_half_even (q * 10))) in *.
  unfold Qdiv. change (/ 10)%Q with (1 # 10)%Q. split; lra.
Qed.


(** ** Facts about the emission factors *)

Lemma emission_factors_positive (kind : string) (c : pyfloat) :
  EMISSION_FACTORS !! kind = Some c -> fpos c.
Proof.
  intros H. apply elem_of_map_to_list in H.
  let l := eval vm_compute in (map_to_list EMISSION_FACTORS) in
  change (map_to_list EMISSION_FACTORS) with l in H.
  repeat (apply elem_of_cons in H as [H | H];
          [inversion H; subst; simpl; reflexivity |]).
  apply elem_of_nil in H. contradiction.
Qed.

Lemma grid_factor : item EMISSION_FACTORS "electricity_grid" = Ok (Fin 0.416).
Proof. reflexivity. Qed.

Lemma get_by_value_positive (kind : pyval) (c : pyfloat) :
  get_by_value EMISSION_FACTORS kind (Fin 0.416) = Ok c -> fpos c.
Proof.
  destruct kind as [| b | z | f | s | l | d]; simpl; intros H; inversion H; subst;
    try reflexivity.
  destruct (EMISSION_FACTORS !! s) as [v |] eqn:Hs; [| reflexivity].
  exact (emission_factors_positive s v Hs).
Qed.

(** ** The estimation engine *)

Section EngineFacts.

Variable predict : FeatureVector -> py pyfloat.
Variable str_exn : exn -> string.

Lemma error_result_fields (e : exn) :
  error_result str_exn e !! "co2_kg" = Some (PInt 0)
  /\ error_result str_exn e !! "confidence" = Some (PInt 0)
  /\ error_result str_exn e !! "error" = Some (PStr (str_exn e))
  /\ dom (error_result str_exn e) = {[ "co2_kg"; "confidence"; "error" ]}
  /\ ~ has_estimate_shape (error_result str_exn e).
Proof.
  split; [reflexivity |]. split; [reflexivity |]. split; [reflexivity |].
  split.
  - unfold error_result, dict_of. rewrite dom_list_to_map_L. simpl. set_solver.
  - intros ([v Hv] & _). vm_compute in Hv. discriminate.
Qed.

(** What a successful run of the [try] block went through. *)
Lemma estimate_ok (data r : Dict) :
  estimate predict data = Ok r ->
  exists q hs f p c sp recs,
    py_float (get data "kWh" (PInt 0)) = Ok q
    /\ py_int (get data "household_size" (PInt 2)) = Ok hs
    /\ get_by_value EMISSION_FACTORS (get data "type" (PStr "electricity_grid"))
         (Fin 0.416) = Ok f
    /\ predict {| fv_kwh := q; fv_household_size := hs;
                  fv_region_factor := Fin 1.0; fv_efficiency := Fin 0.8 |} = Ok p
    /\ calculate_confidence data = Ok c
    /\ calculate_savings_potential data = Ok sp
    /\ generate_recommendations data (fhalf (fadd (fmul q f) p)) = Ok recs
    /\ r !! "co2_kg" = Some (PFloat (round_nd (fhalf (fadd (fmul q f) p)) 2))
    /\ r !! "confidence" = Some (PFloat c)
    /\ r !! "savings_potential" = Some (PDict sp)
    /\ r !! "recommendations" = Some (PList recs)
    /\ is_Some (r !! "breakdown").
Proof.
  unfold estimate. rewrite grid_factor. cbn [bind].
  destruct (py_float _) as [q | e] eqn:Hq; cbn [bind]; [| discriminate].
  destruct (py_int _) as [hs | e] eqn:Hhs; cbn [bind]; [| discriminate].
  destruct (get_by_value _ _ _) as [f | e] eqn:Hf; cbn [bind]; [| discriminate].
  destruct (predict _) as [p | e] eqn:Hp; cbn [bind]; [| discriminate].
  destruct (calculate_confidence data) as [c | e] eqn:Hc; cbn [bind]; [| discriminate].
  destruct (calculate_savings_potential data) as [sp | e] eqn:Hsp; cbn [bind];
    [| discriminate].
  destruct (generate_recommendations data _) as [recs | e] eqn:Hr; cbn [bind];
    [| discriminate].
  intros H. inversion H as [Hres]. clear H.
  exists q, hs, f, p, c, sp, recs.
  repeat split; try assumption; try reflexivity.
  eexists. reflexivity.
Qed.



(** A quantity held as text makes [calculate_confidence] raise. *)
Lemma confidence_rejects_text (data : Dict) (s : string) :
  data !! "kWh" = Some (PStr s) ->
  calculate_confidence data = Raise (TypeError ">" (PStr s)).
Proof.
  intros H. unfold calculate_confidence, has_key, item. rewrite H. reflexivity.
Qed.

(** A quantity that is not a numeric literal stops the run at once. *)
Lemma non_numeric_quantity_raises (data : Dict) (s : string) :
  data !! "kWh" = Some (PStr s) -> float_of_string s = None ->
  estimate predict data = Raise (ValueError "float" (PStr s)).
Proof.
  intros H Hs. unfold estimate, get. rewrite H. simpl. rewrite Hs. reflexivity.
Qed.

(** C2 (as amended). When the [try] block raises,
    [calculate_from_energy_data] still returns: a dict with exactly the
    keys [co2_kg], [confidence] and [error], the first two 0 and the third
    the text of the exception. It has none of [breakdown],
    [savings_potential] and [recommendations]. *)
Theorem error_becomes_three_field_result (data : Dict) :
  raises (estimate predict data) ->
  let r := calculate_from_energy_data predict str_exn data in
  r !! "co2_kg" = Some (PInt 0)
  /\ r !! "confidence" = Some (PInt 0)
  /\ (exists e, estimate predict data = Raise e /\ r !! "error" = Some (PStr (str_exn e)))
  /\ dom r = {[ "co2_kg"; "confidence"; "error" ]}
  /\ ~ has_estimate_shape r.
Proof.
  intros Hr r. subst r. unfold calculate_from_energy_data.
  destruct (estimate predict data) as [ok | e]; [contradiction |].
  destruct (error_result_fields e) as (H1 & H2 & H3 & H4 & H5).
  repeat split; try assumption. exists e. split; [reflexivity | assumption].
Qed.

(** C10. A quantity supplied as a numeric string converts to a float,
    yet the estimation answers the zero-emission, zero-confidence error
    result: the confidence computation compares the string itself with 0
    and raises, and every earlier failure is caught the same way. *)
Theorem numeric_string_quantity_gives_error_result
    (data : Dict) (s : string) (q : pyfloat) :
  data !! "kWh" = Some (PStr s) ->
  float_of_string s = Some q ->
  py_float (get data "kWh" (PInt 0)) = Ok q
  /\ calculate_confidence data = Raise (TypeError ">" (PStr s))
  /\ exists e,
       estimate predict data = Raise e
       /\ calculate_from_energy_data predict str_exn data = error_result str_exn e
       /\ calculate_from_energy_data predict str_exn data !! "co2_kg" = Some (PInt 0)
       /\ calculate_from_energy_data predict str_exn data !! "confidence" = Some (PInt 0)
       /\ calculate_from_energy_data predict str_exn data !! "error"
          = Some (PStr (str_exn e)).
Proof.
  intros H Hs.
  assert (Hq : py_float (get data "kWh" (PInt 0)) = Ok q).
  { unfold get. rewrite H. simpl. rewrite Hs. reflexivity. }
  pose proof (confidence_rejects_text data s H) as Hc.
  split; [exact Hq |]. split; [exact Hc |].
  assert (He : exists e, estimate predict data = Raise e).
  { unfold estimate. rewrite Hq, grid_factor, Hc. cbn [bind].
    destruct (py_int _) as [hs | e]; cbn [bind]; [| eauto].
    destruct (get_by_value _ _ _) as [f | e]; cbn [bind]; [| eauto].
    destruct (predict _) as [p | e]; cbn [bind]; eauto. }
  destruct He as [e He]. exists e.
  unfold calculate_from_energy_data. rewrite He.
  destruct (error_result_fields e) as (H1 & H2 & H3 & _).
  repeat split; assumption || reflexivity.
Qed.


(** C1 (as amended). When the estimation completes on an input whose
    quantity converts to a float [q >= 0], and the model's prediction for
    that input is not negative, [co2_kg] is the mean of [q] times the
    looked-up factor and of the prediction on [(q, household_size, 1.0,
    0.8)], rounded to two decimals: it is within 0.005 of that mean and
    it is not negative. *)
Theorem co2_is_rounded_mean (data r : Dict) (q : pyfloat) :
  estimate predict data = Ok r ->
  py_float (get data "kWh" (PInt 0)) = Ok q ->
  fle (Fin 0) q ->
  (forall hs p,
      py_int (get data "household_size" (PInt 2)) = Ok hs ->
      predict {| fv_kwh := q; fv_household_size := hs;
                 fv_region_factor := Fin 1.0; fv_efficiency := Fin 0.8 |} = Ok p ->
      fle (Fin 0) p) ->
  calculate_from_energy_data predict str_exn data = r
  /\ co2_is_mean predict data q r
  /\ exists c, r !! "co2_kg" = Some (PFloat c) /\ fle (Fin 0) c.
Proof.
  intros He Hq Hq0 Hmodel.
  destruct (estimate_ok data r He)
    as (q' & hs & f & p & c & sp & recs & Hq' & Hhs & Hf & Hp & _ & _ & _ & Hco2 & _).
  rewrite Hq in Hq'. inversion Hq' as [Heq]. subst q'. clear Hq'.
  pose proof (Hmodel hs p Hhs Hp) as Hp0.
  pose proof (get_by_value_positive _ _ Hf) as Hfpos.
  assert (Hmean : fle (Fin 0) (fhalf (fadd (fmul q f) p))).
  { apply fhalf_nonneg, fadd_nonneg; [apply fmul_nonneg |]; assumption. }
  split; [unfold calculate_from_energy_data; rewrite He; reflexivity |].
  split.
  - exists f, hs, p. repeat split; try assumption.
    apply round_2_within. intros Hn. rewrite Hn in Hmean. exact Hmean.
  - eexists. split; [exact Hco2 |]. apply round_nd_nonneg. exact Hmean.
Qed.

End EngineFacts.

(** ** Emission-factor lookup *)

(** C8 (as amended). For a source kind that can be a dictionary key (a
    string, a number, a boolean or null) the lookup does not fail: a kind
    of the table gets its coefficient and any other gets the
    [electricity_grid] coefficient 0.416. *)
Theorem emission_factor_lookup (kind : pyval) :
  hashable kind ->
  exists c,
    get_by_value EMISSION_FACTORS kind (Fin 0.416) = Ok c
    /\ (forall s v, kind = PStr s -> EMISSION_FACTORS !! s = Some v -> c = v)
    /\ (forall s, kind = PStr s -> EMISSION_FACTORS !! s = None -> c = Fin 0.416)
    /\ ((forall s, kind <> PStr s) -> c = Fin 0.416).
Proof.
  destruct kind as [| b | z | f | s | l | d]; simpl; intros Hh; try contradiction.
  all: eexists; split; [reflexivity |].
  all: repeat split; try reflexivity; try (intros s' v' Hk; discriminate Hk);
    try (intros s' Hk; discriminate Hk).
  - intros s' v Hk Hv. inversion Hk; subst. rewrite Hv. reflexivity.
  - intros s' Hk Hv. inversion Hk; subst. rewrite Hv. reflexivity.
  - intros Hk. exfalso. exact (Hk s eq_refl).
Qed.

Lemma emission_factor_lookup_witness :
  hashable (PStr "coal")
  /\ get_by_value EMISSION_FACTORS (PStr "coal") (Fin 0.416) = Ok (Fin 0.820)
  /\ hashable (PStr "geothermal")
  /\ get_by_value EMISSION_FACTORS (PStr "geothermal") (Fin 0.416) = Ok (Fin 0.416).
Proof.
  split; [exact I |]. split.
  - destruct (emission_factor_lookup (PStr "coal") I) as (c & Hc & Hknown & _).
    rewrite Hc. f_equal. exact (Hknown "coal" (Fin 0.820) eq_refl eq_refl).
  - split; [exact I |].
    destruct (emission_factor_lookup (PStr "geothermal") I) as (c & Hc & _ & Hunknown & _).
    rewrite Hc. f_equal. exact (Hunknown "geothermal" eq_refl eq_refl).
Defined.

(** The eight kinds of the table and their coefficients. *)
Lemma emission_factor_table :
  map (fun k => get_by_value EMISSION_FACTORS (PStr k) (Fin 0.416))
      [ "electricity_grid"; "natural_gas"; "gasoline"; "diesel";
        "coal"; "solar"; "wind"; "hydro" ]
  = map (fun c => Ok (Fin c))
      [ 0.416; 0.202; 2.31; 2.68; 0.820; 0.041; 0.011; 0.024 ]%Q.
Proof. reflexivity. Qed.

(** A kind that is a list cannot be hashed: the lookup raises, and the
    estimation answers the error result. *)
Lemma list_kind_makes_lookup_raise :
  get_by_value EMISSION_FACTORS (PList [PStr "coal"]) (Fin 0.416)
    = Raise (TypeError "hash" (PList [PStr "coal"]))
  /\ estimate label_model kind_is_a_list = Raise (TypeError "hash" (PList [PStr "coal"]))
  /\ calculate_from_energy_data label_model exn_name kind_is_a_list !! "error"
     = Some (PStr "TypeError").
Proof. repeat split; vm_compute; reflexivity. Qed.

(** ** The engine on concrete inputs *)

Lemma error_becomes_three_field_result_witness :
  raises (estimate label_model quantity_not_numeric)
  /\ calculate_from_energy_data label_model exn_name quantity_not_numeric !! "co2_kg"
     = Some (PInt 0)
  /\ calculate_from_energy_data label_model exn_name quantity_not_numeric !! "confidence"
     = Some (PInt 0)
  /\ dom (calculate_from_energy_data label_model exn_name quantity_not_numeric)
     = {[ "co2_kg"; "confidence"; "error" ]}.
Proof.
  assert (Hr : raises (estimate label_model quantity_not_numeric)).
  { rewrite (non_numeric_quantity_raises label_model quantity_not_numeric "abc");
      [exact I | reflexivity | reflexivity]. }
  split; [exact Hr |].
  destruct (error_becomes_three_field_result label_model exn_name quantity_not_numeric Hr)
    as (H1 & H2 & _ & H4 & _).
  repeat split; assumption.
Defined.

(** The result of a failed estimation has none of the keys [breakdown],
    [savings_potential], [recommendations] of a successful one. *)
Lemma error_result_lacks_estimate_shape :
  raises (estimate label_model quantity_not_numeric)
  /\ calculate_from_energy_data label_model exn_name quantity_not_numeric !! "breakdown"
     = None
  /\ ~ has_estimate_shape
       (calculate_from_energy_data label_model exn_name quantity_not_numeric).
Proof.
  split; [vm_compute; exact I |]. split; [vm_compute; reflexivity |].
  intros ([v Hv] & _). vm_compute in Hv. discriminate.
Qed.

Lemma numeric_string_quantity_gives_error_result_witness :
  quantity_as_text !! "kWh" = Some (PStr "500")
  /\ float_of_string "500" = Some (Fin 500)
  /\ estimate label_model quantity_as_text = Raise (TypeError ">" (PStr "500"))
  /\ calculate_from_energy_data label_model exn_name quantity_as_text !! "co2_kg"
     = Some (PInt 0)
  /\ calculate_from_energy_data label_model exn_name quantity_as_text !! "confidence"
     = Some (PInt 0).
Proof.
  split; [reflexivity |]. split; [reflexivity |].
  destruct (numeric_string_quantity_gives_error_result label_model exn_name
              quantity_as_text "500" (Fin 500) eq_refl eq_refl)
    as (_ & _ & e & He & _ & H1 & H2 & _).
  split; [vm_compute; reflexivity |]. split; assumption.
Defined.


Lemma co2_is_rounded_mean_witness :
  fle (Fin 0) (of_Z 1000)
  /\ co2_is_mean label_model coal_1000 (of_Z 1000)
       (calculate_from_energy_data label_model exn_name coal_1000)
  /\ calculate_from_energy_data label_model exn_name coal_1000 !! "co2_kg"
     = Some (PFloat (Fin (17738 # 25))).
Proof.
  assert (H0 : fle (Fin 0) (of_Z 1000)) by (vm_compute; discriminate).
  split; [exact H0 |].
  destruct (co2_is_rounded_mean label_model exn_name coal_1000
              (calculate_from_energy_data label_model exn_name coal_1000) (of_Z 1000))
    as (_ & Hmean & _).
  - assert (Hs : succeeds (estimate label_model coal_1000) = true)
      by (vm_compute; reflexivity).
    unfold calculate_from_energy_data.
    destruct (estimate label_model coal_1000) as [r | e]; [reflexivity |].
    discriminate Hs.
  - reflexivity.
  - exact H0.
  - intros hs p Hhs Hp. vm_compute in Hhs. inversion Hhs; subst.
    vm_compute in Hp. inversion Hp; subst. vm_compute. discriminate.
  - split; [exact Hmean |]. vm_compute. reflexivity.
Defined.

(** With all four fields given and a positive quantity the confidence
    reaches the clamp: 0.5 + 0.2 + 0.1 + 0.1 + 0.1 = 1. *)
Lemma full_record_has_confidence_1 :
  calculate_from_energy_data label_model exn_name full_record !! "confidence"
    = Some (PFloat (Fin 1))
  /\ titles (match calculate_from_energy_data label_model exn_name full_record
                     !! "recommendations" with
             | Some (PList l) => l
             | _ => []
             end)
     = [ Some (PStr "High Energy Usage Detected"); Some (PStr "LED Lighting Upgrade");
         Some (PStr "Smart Thermostat") ].
Proof. split; vm_compute; reflexivity. Qed.

(** The quantity 100 converts and is not negative, the formula estimate
    is 208/5 = 41.6, but the household size is not a number: the estimation fails
    and [co2_kg] is 0, the mean of nothing. *)
Lemma failed_estimation_is_not_the_mean :
  py_float (get household_not_numeric "kWh" (PInt 0)) = Ok (of_Z 100)
  /\ fle (Fin 0) (of_Z 100)
  /\ fmul (of_Z 100) (Fin 0.416) = Fin (208 # 5)
  /\ calculate_from_energy_data label_model exn_name household_not_numeric !! "co2_kg"
     = Some (PInt 0)
  /\ ~ co2_is_mean label_model household_not_numeric (of_Z 100)
         (calculate_from_energy_data label_model exn_name household_not_numeric).
Proof.
  split; [reflexivity |]. split; [vm_compute; discriminate |].
  split; [reflexivity |]. split; [vm_compute; reflexivity |].
  intros (f & hs & p & _ & Hhs & _). vm_compute in Hhs. discriminate.
Qed.

(** ** Recommendations and savings potential *)




(** What the three recommendations say at 1500 kWh. *)
Lemma recommendations_at_1500 :
  titles [high_usage (of_Z 1500); led_upgrade (of_Z 1500); smart_thermostat (of_Z 1500)]
    = [ Some (PStr "High Energy Usage Detected"); Some (PStr "LED Lighting Upgrade");
        Some (PStr "Smart Thermostat") ]
  /\ map (fun r => field (Some r) "potential_savings")
       [high_usage (of_Z 1500); led_upgrade (of_Z 1500); smart_thermostat (of_Z 1500)]
     = [ Some (PStr "300 kWh/month"); Some (PStr "225 kWh/month");
         Some (PStr "180 kWh/month") ].
Proof. split; vm_compute; reflexivity. Qed.





(** ** The bill parser *)

(** C9. Whatever the text, the confidence of the parsed bill is at most
    0.8, the sum 0.3 + 0.2 + 0.2 + 0.1 of the four contributions: the
    bound 1.0 of the final [min] is never reached. *)
Theorem bill_confidence_at_most_0_8 (text : string) :
  fle (Fin 0) (num_float (confidence (parse_utility_bill text)))
  /\ fle (num_float (confidence (parse_utility_bill text))) (Fin 0.8)
  /\ fltb (num_float (confidence (parse_utility_bill text))) (Fin 1.0) = true.
Proof.
  unfold parse_utility_bill, extract_kwh, extract_amount, extract_period,
    extract_provider, clamp.
  generalize (first_match kwh_patterns text) (first_match amount_patterns text)
    (findall date_pattern text) (first_provider providers text).
  intros k a d pv.
  destruct k as [x |]; [destruct (py_float (group x)) as [v | e] |]; cbn [bind];
    (destruct a as [y |]; [destruct (py_float (group y)) as [w | e'] |]); cbn [bind];
    destruct d as [| d0 [| d1 ds]]; destruct pv as [p |];
    cbn -[fle fltb]; (split; [| split]); vm_compute; congruence.
Qed.

(** The bound is reached: a bill with all four fields. *)
Lemma bill_confidence_reaches_0_8 :
  parse_utility_bill sample_bill
  = {| kwh := NFloat (Fin 850); amount := NFloat (Fin (241 # 2));
       service_period := "January 1, 2024 - January 31, 2024";
       provider := "Electric Company"; confidence := NFloat (Fin (4 # 5)) |}.
Proof. vm_compute. reflexivity. Qed.

Section Pipeline.

Variable predict : FeatureVector -> py pyfloat.
Variable str_exn : exn -> string.

(** C6. On empty text the parser returns its defaults (quantity 0,
    amount 0, empty period and provider, confidence 0) and the analysis
    carries no estimation; for any text an estimation is present if and
    only if the extracted quantity is above 0. *)
Theorem empty_text_gives_defaults_and_no_estimation :
  parse_utility_bill "" = initial
  /\ kwh (parse_utility_bill "") = NInt 0
  /\ amount (parse_utility_bill "") = NInt 0
  /\ service_period (parse_utility_bill "") = ""
  /\ provider (parse_utility_bill "") = ""
  /\ confidence (parse_utility_bill "") = NInt 0
  /\ carbon_analysis (analyze_image predict str_exn "") = None
  /\ forall text,
       is_Some (carbon_analysis (analyze_image predict str_exn text))
       <-> fgtb (num_float (kwh (parse_utility_bill text))) (of_Z 0) = true.
Proof.
  repeat (split; [reflexivity |]).
  intros text. unfold analyze_image, num_gt0. cbn [carbon_analysis].
  destruct (fgtb _ _); split; intros H; try reflexivity; try discriminate.
  - eexists. reflexivity.
  - destruct H as [r H]. discriminate.
Qed.

End Pipeline.

(** ** First match wins

    What the searches of the parser return on a text that holds the
    reading and the amount of the scenario. *)

(** Positions where no match starts are passed over. *)
Lemma search_skips_unmatched (ignorecase : bool) (r : regex) (n : nat) (s : string) :
  unmatched_prefix ignorecase r s n = true ->
  search ignorecase r s = search ignorecase r (drop n s).
Proof.
  revert s. induction n as [| n IH]; intros s H.
  - destruct s; reflexivity.
  - destruct s as [| a t]; [reflexivity |].
    change (unmatched_prefix ignorecase r (String a t) (S n))
      with (match match_here ignorecase r (String a t) with
            | Some _ => false
            | None => unmatched_prefix ignorecase r t n
            end) in H.
    change (search ignorecase r (String a t))
      with (match match_here ignorecase r (String a t) with
            | Some x => Some x
            | None => search ignorecase r t
            end).
    destruct (match_here ignorecase r (String a t)); [discriminate H |].
    cbn [drop]. apply IH. exact H.
Qed.

Lemma drop_app (pre s : string) : drop (String.length pre) (pre +:+ s) = s.
Proof. induction pre as [| a pre IH]; simpl; [destruct s; reflexivity | exact IH]. Qed.

Lemma kwh_reading_found (suf : string) :
  search true kwh_unit_pattern ("Total Usage: 850 kWh" +:+ suf)
  = Some {| consumed := "850 kWh"; rest := suf; group1 := Some "850" |}.
Proof. reflexivity. Qed.


Lemma amount_found (suf : string) :
  starts_with_digit suf = false ->
  search true dollar_pattern ("Amount Due: $120.50" +:+ suf)
  = Some {| consumed := "$120.50"; rest := suf; group1 := Some "120.50" |}.
Proof.
  destruct suf as [| [b0 b1 b2 b3 b4 b5 b6 b7] t]; intros H; [reflexivity |].
  destruct b0, b1, b2, b3, b4, b5, b6, b7;
    first [ discriminate H | vm_compute; reflexivity ].
Qed.

(** A pattern that is one group captures what it consumes. *)
Lemma group_captures (ignorecase : bool) (r : regex) (s : string) (x : outcome) :
  match_here ignorecase (Group r) s = Some x -> group1 x = Some (consumed x).
Proof.
  unfold match_here.
  change (matches ignorecase (Group r) s)
    with (map (fun y => {| consumed := consumed y; rest := rest y;
                           group1 := Some (consumed y) |})
              (matches ignorecase r s)).
  destruct (matches ignorecase r s) as [| y l]; cbn [map head]; intros H;
    [discriminate H |].
  inversion H. reflexivity.
Qed.

Lemma date_group_is_string (s : string) (x : outcome) :
  match_here false date_pattern s = Some x -> group x = PStr (consumed x).
Proof.
  unfold date_pattern. intros H. apply group_captures in H.
  unfold group. rewrite H. reflexivity.
Qed.

Lemma findall_dates_are_strings (s : string) (skip : nat) :
  Forall (fun v => exists d, v = PStr d) (findall_from date_pattern s skip).
Proof.
  revert skip. induction s as [| a t IH]; intros skip.
  - destruct skip as [| k]; cbn [findall_from]; [| constructor].
    destruct (match_here false date_pattern "") as [x |] eqn:Hx; constructor.
    + rewrite (date_group_is_string _ _ Hx). eauto.
    + constructor.
  - destruct skip as [| k]; cbn [findall_from]; [| apply IH].
    destruct (match_here false date_pattern (String a t)) as [x |] eqn:Hx;
      [| apply IH].
    constructor; [| apply IH].
    rewrite (date_group_is_string _ _ Hx). eauto.
Qed.

(** C7 (as amended). Let the text hold "Total Usage: 850 kWh" with no
    number-and-kWh match starting before it, hold "Amount Due: $120.50"
    with no dollar amount starting before it and no digit right after it,
    and let the date scan find at least two dates. Then the extracted
    quantity is 850, the amount is 120.50, the service period joins the
    first two dates found and is not empty, and the confidence is at
    least 0.7. *)
Theorem first_reading_and_amount_are_extracted
    (text pre1 suf1 pre2 suf2 : string) :
  text = pre1 +:+ "Total Usage: 850 kWh" +:+ suf1 ->
  text = pre2 +:+ "Amount Due: $120.50" +:+ suf2 ->
  unmatched_prefix true kwh_unit_pattern text (String.length pre1) = true ->
  unmatched_prefix true dollar_pattern text (String.length pre2) = true ->
  starts_with_digit suf2 = false ->
  (2 <= length (findall date_pattern text))%nat ->
  kwh (parse_utility_bill text) = NFloat (Fin 850)
  /\ amount (parse_utility_bill text) = NFloat (Fin (241 # 2))
  /\ (241 # 2 == 120.50)%Q
  /\ (exists d0 d1 ds,
        findall date_pattern text = PStr d0 :: PStr d1 :: ds
        /\ service_period (parse_utility_bill text) = d0 +:+ " - " +:+ d1)
  /\ service_period (parse_utility_bill text) <> ""
  /\ fle (Fin 0.7) (num_float (confidence (parse_utility_bill text))).
Proof.
  intros Ht1 Ht2 Hu1 Hu2 Hd Hn.
  assert (Hk : first_match kwh_patterns text
               = Some {| consumed := "850 kWh"; rest := suf1; group1 := Some "850" |}).
  { unfold kwh_patterns. cbn [first_match].
    change (Cat number_group (Cat (star Space) (lit "kWh"))) with kwh_unit_pattern.
    rewrite (search_skips_unmatched _ _ _ _ Hu1), Ht1, drop_app, kwh_reading_found.
    reflexivity. }
  assert (Ha : first_match amount_patterns text
               = Some {| consumed := "$120.50"; rest := suf2; group1 := Some "120.50" |}).
  { unfold amount_patterns. cbn [first_match].
    change (Cat (One (Char "$")) number_group) with dollar_pattern.
    rewrite (search_skips_unmatched _ _ _ _ Hu2), Ht2, drop_app, (amount_found _ Hd).
    reflexivity. }
  assert (Hdates : exists d0 d1 ds, findall date_pattern text = PStr d0 :: PStr d1 :: ds).
  { pose proof (findall_dates_are_strings text 0) as Hall. fold (findall date_pattern text) in Hall.
    destruct (findall date_pattern text) as [| v0 [| v1 ds]]; simpl in Hn; try lia.
    inversion Hall as [| ? ? [d0 ->] Hall']. inversion Hall' as [| ? ? [d1 ->] _].
    eauto. }
  destruct Hdates as (d0 & d1 & ds & Hdates).
  unfold parse_utility_bill, extract_kwh, extract_amount, extract_period,
    extract_provider, clamp.
  rewrite Hk.
  change (py_float (group {| consumed := "850 kWh"; rest := suf1; group1 := Some "850" |}))
    with (Ok (A := pyfloat) (Fin 850)).
  cbn [bind]. rewrite Ha.
  change (py_float (group {| consumed := "$120.50"; rest := suf2; group1 := Some "120.50" |}))
    with (Ok (A := pyfloat) (Fin (241 # 2))).
  cbn [bind]. rewrite Hdates.
  destruct (first_provider providers text) as [p |];
    cbn [kwh amount service_period confidence provider str_of].
  all: split; [reflexivity |]; split; [reflexivity |]; split; [reflexivity |].
  all: split; [exists d0, d1, ds; split; reflexivity |].
  all: split; [destruct d0; discriminate |].
  all: vm_compute; discriminate.
Qed.

Lemma first_reading_and_amount_are_extracted_witness :
  unmatched_prefix true kwh_unit_pattern sample_bill
    (String.length "Electric Company ") = true
  /\ unmatched_prefix true dollar_pattern sample_bill
       (String.length "Electric Company Total Usage: 850 kWh ") = true
  /\ (2 <= length (findall date_pattern sample_bill))%nat
  /\ kwh (parse_utility_bill sample_bill) = NFloat (Fin 850)
  /\ amount (parse_utility_bill sample_bill) = NFloat (Fin (241 # 2))
  /\ service_period (parse_utility_bill sample_bill) <> ""
  /\ fle (Fin 0.7) (num_float (confidence (parse_utility_bill sample_bill))).
Proof.
  assert (Hu1 : unmatched_prefix true kwh_unit_pattern sample_bill
                  (String.length "Electric Company ") = true)
    by (vm_compute; reflexivity).
  assert (Hu2 : unmatched_prefix true dollar_pattern sample_bill
                  (String.length "Electric Company Total Usage: 850 kWh ") = true)
    by (vm_compute; reflexivity).
  assert (Hn : (2 <= length (findall date_pattern sample_bill))%nat)
    by (vm_compute; lia).
  destruct (first_reading_and_amount_are_extracted sample_bill
              "Electric Company "
              " Amount Due: $120.50 Service: January 1, 2024 to January 31, 2024"
              "Electric Company Total Usage: 850 kWh "
              " Service: January 1, 2024 to January 31, 2024"
              eq_refl eq_refl Hu1 Hu2 eq_refl Hn)
    as (Hk & Ha & _ & _ & Hp & Hc).
  exact (conj Hu1 (conj Hu2 (conj Hn (conj Hk (conj Ha (conj Hp Hc)))))).
Defined.

(** A text that holds both substrings and two dates, with an earlier
    reading of 700 kWh: the first match wins and the quantity is 700. *)
Lemma earlier_reading_wins :
  contains "Total Usage: 850 kWh" bill_with_earlier_reading = true
  /\ contains "Amount Due: $120.50" bill_with_earlier_reading = true
  /\ findall date_pattern bill_with_earlier_reading
     = [PStr "January 1, 2024"; PStr "January 31, 2024"]
  /\ kwh (parse_utility_bill bill_with_earlier_reading) = NFloat (Fin 700)
  /\ ~ feq (Fin 700) (Fin 850).
Proof.
  split; [vm_compute; reflexivity |]. split; [vm_compute; reflexivity |].
  split; [vm_compute; reflexivity |]. split; [vm_compute; reflexivity |].
  vm_compute. discriminate.
Qed.

(** A digit right after the amount belongs to it: the group is greedy. *)
Lemma following_digit_joins_amount :
  contains "Amount Due: $120.50" "Amount Due: $120.507" = true
  /\ amount (parse_utility_bill "Amount Due: $120.507") = NFloat (Fin (120507 # 1000)).
Proof. split; vm_compute; reflexivity. Qed.

(** ** The text excerpt of an analysis *)

Lemma take_length (n : nat) (s : string) :
  String.length (take n s) = Nat.min n (String.length s).
Proof.
  revert s. induction n as [| n IH]; intros [| a t]; simpl; try reflexivity.
  rewrite IH. reflexivity.
Qed.

(** The text returned with an analysis is the first 500 characters of the
    recognised text: never longer than 500, and the whole text when that
    is not longer. The parser still reads the whole text. *)
Lemma ocr_excerpt_at_most_500 (predict : FeatureVector -> py pyfloat)
    (str_exn : exn -> string) (text : string) :
  ocr_text (analyze_image predict str_exn text) = take 500 text
  /\ (String.length (ocr_text (analyze_image predict str_exn text)) <= 500)%nat
  /\ String.length (ocr_text (analyze_image predict str_exn text))
     = Nat.min 500 (String.length text)
  /\ parsed_data (analyze_image predict str_exn text) = parse_utility_bill text.
Proof.
  unfold analyze_image. cbn [ocr_text parsed_data].
  rewrite take_length. repeat split; lia.
Qed.

(** ** More on the estimation engine *)

Section EngineMore.

Variable predict : FeatureVector -> py pyfloat.
Variable str_exn : exn -> string.

(** The dict a successful run returns, whole. *)
Lemma estimate_ok_dict (data r : Dict) :
  estimate predict data = Ok r ->
  exists q hs f p c sp recs,
    py_float (get data "kWh" (PInt 0)) = Ok q
    /\ py_int (get data "household_size" (PInt 2)) = Ok hs
    /\ get_by_value EMISSION_FACTORS (get data "type" (PStr "electricity_grid"))
         (Fin 0.416) = Ok f
    /\ predict {| fv_kwh := q; fv_household_size := hs;
                  fv_region_factor := Fin 1.0; fv_efficiency := Fin 0.8 |} = Ok p
    /\ calculate_confidence data = Ok c
    /\ calculate_savings_potential data = Ok sp
    /\ generate_recommendations data (fhalf (fadd (fmul q f) p)) = Ok recs
    /\ r = dict_of
        [ ("co2_kg", PFloat (round_nd (fhalf (fadd (fmul q f) p)) 2));
          ("confidence", PFloat c);
          ("breakdown", PDict (dict_of
             [ ("energy_type", get data "type" (PStr "electricity_grid"));
               ("consumption_kwh", PFloat q);
               ("emission_factor", PFloat f);
               ("basic_calculation", PFloat (round_nd (fmul q f) 2));
               ("ml_enhanced", PFloat (round_nd p 2)) ]));
          ("savings_potential", PDict sp);
          ("recommendations", PList recs) ].
Proof.
  unfold estimate. rewrite grid_factor. cbn [bind].
  destruct (py_float _) as [q | e] eqn:Hq; cbn [bind]; [| discriminate].
  destruct (py_int _) as [hs | e] eqn:Hhs; cbn [bind]; [| discriminate].
  destruct (get_by_value _ _ _) as [f | e] eqn:Hf; cbn [bind]; [| discriminate].
  destruct (predict _) as [p | e] eqn:Hp; cbn [bind]; [| discriminate].
  destruct (calculate_confidence data) as [c | e] eqn:Hc; cbn [bind]; [| discriminate].
  destruct (calculate_savings_potential data) as [sp | e] eqn:Hsp; cbn [bind];
    [| discriminate].
  destruct (generate_recommendations data _) as [recs | e] eqn:Hr; cbn [bind];
    [| discriminate].
  intros H. inversion H as [Hres]. clear H.
  exists q, hs, f, p, c, sp, recs. repeat split; assumption || reflexivity.
Qed.

(** X2. The key [error] tells a failed estimation from a completed one:
    it is present exactly when the [try] block raised. A completed
    estimation has exactly the keys [co2_kg], [confidence], [breakdown],
    [savings_potential] and [recommendations]; either result holds a
    number under [co2_kg] and under [confidence]. *)
Theorem error_key_marks_failure (data : Dict) :
  (is_Some (calculate_from_energy_data predict str_exn data !! "error")
   <-> raises (estimate predict data))
  /\ (dom (calculate_from_energy_data predict str_exn data) = estimate_keys
      <-> succeeds (estimate predict data) = true)
  /\ is_Some (number_of (calculate_from_energy_data predict str_exn data !! "co2_kg"))
  /\ is_Some (number_of (calculate_from_energy_data predict str_exn data !! "confidence")).
Proof.
  unfold calculate_from_energy_data.
  destruct (estimate predict data) as [r | e] eqn:He.
  - destruct (estimate_ok_dict data r He)
      as (q & hs & f & p & c & sp & recs & _ & _ & _ & _ & _ & _ & _ & ->).
    split; [| split; [| split]].
    + split; [intros [v Hv]; vm_compute in Hv; discriminate Hv | intros []].
    + split; [reflexivity |]. intros _.
      unfold dict_of, estimate_keys. rewrite dom_list_to_map_L. simpl. set_solver.
    + eexists. reflexivity.
    + eexists. reflexivity.
  - destruct (error_result_fields str_exn e) as (H1 & H2 & H3 & H4 & _).
    split; [| split; [| split]].
    + split; [intros _; exact I | intros _; rewrite H3; eauto].
    + split; [| discriminate]. intros Hd. rewrite H4 in Hd. exfalso.
      assert (Hin : "breakdown" ∈ estimate_keys) by (unfold estimate_keys; set_solver).
      rewrite <- Hd in Hin. set_solver.
    + rewrite H1. eexists. reflexivity.
    + rewrite H2. eexists. reflexivity.
Qed.





(** X4. The value of [region] plays no part: two inputs that differ
    only in the value held under [region] get the same result. Only the
    presence of the key counts, through the confidence. *)
Theorem region_value_is_ignored (data : Dict) (v v' : pyval) :
  calculate_from_energy_data predict str_exn (<[ "region" := v ]> data)
  = calculate_from_energy_data predict str_exn (<[ "region" := v' ]> data).
Proof.
  unfold calculate_from_energy_data, estimate, calculate_confidence,
    calculate_savings_potential, generate_recommendations, get, has_key, item.
  rewrite !lookup_insert_eq.
  rewrite !(lookup_insert_ne _ "region" "kWh") by discriminate.
  rewrite !(lookup_insert_ne _ "region" "type") by discriminate.
  rewrite !(lookup_insert_ne _ "region" "household_size") by discriminate.
  reflexivity.
Qed.



End EngineMore.

(** X6. Giving one more of [type], [household_size] and [region] never
    lowers the confidence and adds at most 0.1 to it; a confidence that
    is computed is at least 0.5. *)
Theorem confidence_grows_with_fields (data : Dict) (k : string) (v : pyval)
    (c : pyfloat) :
  In k ["type"; "household_size"; "region"]%string ->
  data !! k = None ->
  calculate_confidence data = Ok c ->
  fle (Fin 0.5) c
  /\ exists c', calculate_confidence (<[ k := v ]> data) = Ok c'
                /\ fle c c' /\ fle c' (fadd c (Fin 0.1)).
Proof.
  intros Hk Hnone. unfold calculate_confidence, has_key, item.
  destruct Hk as [<- | [<- | [<- | []]]];
    rewrite lookup_insert_eq, !lookup_insert_ne by discriminate;
    rewrite Hnone;
    (destruct (data !! "kWh") as [w |]; cbn [bind];
     [destruct (py_gt0 w) as [[|] | e]; cbn [bind] |]);
    try discriminate;
    repeat match goal with
           | |- context [data !! ?key] => destruct (data !! key)
           end;
    intros Hc; inversion Hc; subst; clear Hc;
    (split; [vm_compute; discriminate |]);
    eexists; (split; [reflexivity |]); split; vm_compute; discriminate.
Qed.

Lemma confidence_grows_with_fields_witness :
  In "region" ["type"; "household_size"; "region"]%string
  /\ coal_1000 !! "region" = None
  /\ calculate_confidence coal_1000 = Ok (Fin (4 # 5))
  /\ calculate_confidence (<[ "region" := PStr "EU" ]> coal_1000) = Ok (Fin (9 # 10)).
Proof.
  assert (Hin : In "region" ["type"; "household_size"; "region"]%string)
    by (right; right; left; reflexivity).
  assert (Hc : calculate_confidence coal_1000 = Ok (Fin (4 # 5)))
    by (vm_compute; reflexivity).
  destruct (confidence_grows_with_fields coal_1000 "region" (PStr "EU") (Fin (4 # 5))
              Hin eq_refl Hc) as (_ & c' & Hc' & _ & _).
  split; [exact Hin |]. split; [reflexivity |]. split; [exact Hc |].
  rewrite Hc'. vm_compute in Hc'. inversion Hc'. reflexivity.
Defined.

(** ** The bill parser never reaches its [except] clause *)

Lemma digit_head (c : ascii) (t : string) :
  is_digit c = true ->
  lstrip (String c t) = String c t
  /\ sign (String c t) = (false, String c t)
  /\ special (String c t) = None
  /\ (0 <= digit_val c)%Z
  /\ Ascii.eqb c "_" = false /\ Ascii.eqb c "." = false.
Proof.
  destruct c as [b0 b1 b2 b3 b4 b5 b6 b7].
  destruct b0, b1, b2, b3, b4, b5, b6, b7; intros H;
    first [ discriminate H
          | repeat split; first [ reflexivity | vm_compute; discriminate ] ].
Qed.

Lemma append_empty_r (s : string) : s +:+ EmptyString = s.
Proof.
  induction s as [| c s IH]; [reflexivity |].
  change (String c s +:+ EmptyString) with (String c (s +:+ EmptyString)).
  rewrite IH. reflexivity.
Qed.

(** Scanning a run of digits that ends the text or stops at a point. *)
Lemma scan_digits_run (d r : string) (acc : Z) (cnt : nat) :
  all_digits d = true ->
  (r = EmptyString \/ exists t, r = String "." t) ->
  scan_digits (d +:+ r) acc cnt = (digits_value d acc, (cnt + String.length d)%nat, r).
Proof.
  revert acc cnt. induction d as [| c d IH]; intros acc cnt Hd Hr.
  - change (EmptyString +:+ r) with r. cbn [digits_value String.length].
    rewrite Nat.add_0_r. destruct Hr as [-> | [t ->]]; reflexivity.
  - cbn [all_digits] in Hd. apply andb_prop in Hd as [Hc Hd].
    change (String c d +:+ r) with (String c (d +:+ r)).
    cbn [digits_value String.length scan_digits]. rewrite Hc.
    rewrite (IH _ _ Hd Hr). f_equal. f_equal. lia.
Qed.

Lemma scan_digits_all (d : string) (acc : Z) (cnt : nat) :
  all_digits d = true ->
  scan_digits d acc cnt = (digits_value d acc, (cnt + String.length d)%nat, EmptyString).
Proof.
  intros Hd. rewrite <- (scan_digits_run d EmptyString acc cnt Hd (or_introl eq_refl)).
  rewrite append_empty_r. reflexivity.
Qed.

Lemma digits_value_nonneg (d : string) (acc : Z) :
  all_digits d = true -> (0 <= acc)%Z -> (0 <= digits_value d acc)%Z.
Proof.
  revert acc. induction d as [| c d IH]; intros acc Hd Hacc; [exact Hacc |].
  cbn [all_digits] in Hd. apply andb_prop in Hd as [Hc Hd].
  cbn [digits_value]. apply IH; [exact Hd |].
  destruct (digit_head c EmptyString Hc) as (_ & _ & _ & Hv & _). lia.
Qed.

Lemma scale10_nonneg (m e : Z) : (0 <= m)%Z -> (0 <= scale10 m e)%Q.
Proof.
  intros Hm. unfold scale10. destruct (0 <=? e)%Z.
  - change 0%Q with (inject_Z 0). rewrite <- Zle_Qle.
    apply Z.mul_nonneg_nonneg; [exact Hm | apply Z.pow_nonneg; lia].
  - rewrite Qred_eq. unfold Qle. simpl. lia.
Qed.

(** [float()] reads a number text as a finite value that is not negative. *)
Lemma number_text_converts (g : string) :
  number_text g ->
  exists q, float_of_string g = Some (Fin q) /\ (0 <= q)%Q.
Proof.
  intros (d & Hne & Hd & Hg).
  destruct d as [| c d]; [congruence |].
  cbn [all_digits] in Hd. apply andb_prop in Hd as [Hc Hd].
  destruct (digit_head c EmptyString Hc) as (_ & _ & _ & Hv & _).
  assert (Hip : (0 <= digits_value d (digit_val c))%Z)
    by (apply digits_value_nonneg; assumption).
  destruct Hg as [-> | (d' & Hne' & Hd' & ->)].
  - destruct (digit_head c d Hc) as (Hl & Hs & Hsp & _).
    unfold float_of_string. rewrite Hl, Hs, Hsp.
    unfold number, digitpart. rewrite Hc.
    rewrite (scan_digits_all d _ _ Hd).
    cbn [exponent all_blank]. eexists. split; [reflexivity |].
    rewrite Qred_eq. apply scale10_nonneg. exact Hip.
  - change (String c d +:+ String "." d') with (String c (d +:+ String "." d')).
    destruct (digit_head c (d +:+ String "." d') Hc) as (Hl & Hs & Hsp & _).
    unfold float_of_string. rewrite Hl, Hs, Hsp.
    unfold number. unfold digitpart at 1. rewrite Hc.
    rewrite (scan_digits_run d (String "." d') _ _ Hd (or_intror (ex_intro _ d' eq_refl))).
    destruct d' as [| c' d']; [congruence |].
    cbn [all_digits] in Hd'. apply andb_prop in Hd' as [Hc' Hd'].
    unfold digitpart. rewrite Hc'.
    rewrite (scan_digits_all (String c' d') _ _
               ltac:(cbn [all_digits]; rewrite Hc', Hd'; reflexivity)).
    cbn [exponent all_blank]. eexists. split; [reflexivity |].
    rewrite Qred_eq. apply scale10_nonneg.
    apply digits_value_nonneg; [cbn [all_digits]; rewrite Hc', Hd'; reflexivity | exact Hip].
Qed.

(** The outcomes of a repetition: a prefix of the run, at least [lo] long. *)
Lemma rep_outcomes (ic : bool) (c : cset) (lo : nat) (hi : option nat) (s : string)
    (x : outcome) :
  In x (matches ic (Rep c lo hi) s) ->
  exists k, (lo <= k <= run ic c hi s)%nat
            /\ consumed x = take k s /\ rest x = drop k s /\ group1 x = None.
Proof.
  cbn [matches]. rewrite in_map_iff. intros (k & <- & Hk).
  apply in_rev, in_seq in Hk. exists k. cbn. repeat split; lia.
Qed.

(** A prefix of a run of digits is made of digits. *)
Lemma take_run_digits (ic : bool) (k : nat) (hi : option nat) (s : string) :
  (k <= run ic Digit hi s)%nat ->
  all_digits (take k s) = true /\ String.length (take k s) = k.
Proof.
  revert hi s. induction k as [| k IH]; intros hi s Hk.
  - destruct s; split; reflexivity.
  - destruct s as [| a t].
    + destruct hi as [[| n] |]; cbn [run] in Hk; lia.
    + assert (Ha : is_digit a = true /\ (k <= run ic Digit (dec_bound hi) t)%nat).
      { destruct hi as [[| n] |]; cbn [run cset_mem] in Hk; try lia;
          destruct (is_digit a); try lia; split; try reflexivity; lia. }
      destruct Ha as [Ha Hk']. destruct (IH _ _ Hk') as [Hd Hl].
      cbn [take all_digits String.length]. rewrite Ha, Hd, Hl. split; reflexivity.
Qed.

Lemma point_only (ic : bool) (a : ascii) : cset_mem ic (Char ".") a = true -> a = "."%char.
Proof.
  destruct a as [b0 b1 b2 b3 b4 b5 b6 b7].
  destruct ic, b0, b1, b2, b3, b4, b5, b6, b7; intros H;
    first [ reflexivity | discriminate H ].
Qed.

(** What [number_group] matches and captures. *)
Lemma number_group_outcomes (ic : bool) (s : string) (x : outcome) :
  In x (matches ic number_group s) ->
  group1 x = Some (consumed x) /\ number_text (consumed x).
Proof.
  unfold number_group, plus.
  change (matches ic (Group ?r) s)
    with (map (fun y => {| consumed := consumed y; rest := rest y;
                           group1 := Some (consumed y) |}) (matches ic r s)).
  rewrite in_map_iff. intros (y & <- & Hy). cbn [group1 consumed].
  split; [reflexivity |].
  cbn [matches] in Hy. apply in_flat_map in Hy as (x1 & Hx1 & Hy).
  apply in_map_iff in Hy as (y2 & <- & Hy2). cbn [consumed].
  apply (rep_outcomes ic Digit 1 None s x1) in Hx1 as (k & Hk & Hc1 & Hr1 & _).
  destruct (take_run_digits ic k None s (proj2 Hk)) as [Hd Hl].
  assert (Hne : take k s <> EmptyString).
  { intros He. rewrite He in Hl. cbn in Hl. lia. }
  exists (take k s). split; [exact Hne |]. split; [exact Hd |].
  rewrite Hc1. apply in_app_iff in Hy2 as [Hy2 | [<- | []]].
  - right. apply in_flat_map in Hy2 as (x3 & Hx3 & Hy2).
    apply in_map_iff in Hy2 as (y4 & <- & Hy4). cbn [consumed].
    destruct (rest x1) as [| a t] eqn:Hrest; [contradiction |].
    destruct (cset_mem ic (Char ".") a) eqn:Ha; [| contradiction].
    destruct Hx3 as [<- | []]. cbn [consumed rest] in *.
    apply point_only in Ha. subst a.
    apply (rep_outcomes ic Digit 1 None t y4) in Hy4 as (k' & Hk' & Hc4 & _).
    destruct (take_run_digits ic k' None t (proj2 Hk')) as [Hd' Hl'].
    exists (take k' t). rewrite Hc4. repeat split; try assumption.
    intros He. rewrite He in Hl'. cbn in Hl'. lia.
  - left. cbn [consumed]. rewrite append_empty_r. reflexivity.
Qed.

Lemma groupless_outcomes (ic : bool) (r : regex) :
  groupless r = true ->
  forall s x, In x (matches ic r s) -> group1 x = None.
Proof.
  induction r as [| c | c lo hi | r1 IH1 r2 IH2 | r IH | r IH]; cbn [groupless];
    intros Hg s x Hx.
  - destruct Hx as [<- | []]. reflexivity.
  - cbn [matches] in Hx. destruct s as [| a t]; [contradiction |].
    destruct (cset_mem ic c a); [| contradiction].
    destruct Hx as [<- | []]. reflexivity.
  - apply rep_outcomes in Hx as (k & _ & _ & _ & H). exact H.
  - apply andb_prop in Hg as [Hg1 Hg2]. cbn [matches] in Hx.
    apply in_flat_map in Hx as (x1 & Hx1 & Hx).
    apply in_map_iff in Hx as (y & <- & Hy). cbn [group1].
    rewrite (IH2 Hg2 _ _ Hy), (IH1 Hg1 _ _ Hx1). reflexivity.
  - cbn [matches] in Hx. apply in_app_iff in Hx as [Hx | [<- | []]];
      [exact (IH Hg _ _ Hx) | reflexivity].
  - discriminate Hg.
Qed.

(** A numbered pattern captures a number text whenever it matches. *)
Lemma numbered_outcomes (ic : bool) (r : regex) :
  numbered r ->
  forall s x, In x (matches ic r s) -> exists g, group1 x = Some g /\ number_text g.
Proof.
  induction 1 as [| r1 r2 _ IH | r1 r2 _ IH Hg]; intros s x Hx.
  - destruct (number_group_outcomes ic s x Hx) as [Hg Hn]. eauto.
  - cbn [matches] in Hx. apply in_flat_map in Hx as (x1 & _ & Hx).
    apply in_map_iff in Hx as (y & <- & Hy). cbn [group1].
    destruct (IH _ _ Hy) as (g & -> & Hn). exists g. split; [reflexivity | exact Hn].
  - cbn [matches] in Hx. apply in_flat_map in Hx as (x1 & Hx1 & Hx).
    apply in_map_iff in Hx as (y & <- & Hy). cbn [group1].
    rewrite (groupless_outcomes ic r2 Hg _ _ Hy).
    destruct (IH _ _ Hx1) as (g & -> & Hn). exists g. split; [reflexivity | exact Hn].
Qed.

Lemma search_outcome (ic : bool) (r : regex) (s : string) (x : outcome) :
  search ic r s = Some x -> exists s', In x (matches ic r s').
Proof.
  induction s as [| a t IH]; cbn [search]; unfold match_here;
    destruct (matches ic r _) as [| y l] eqn:Hm; cbn [head]; intros H;
    try discriminate H.
  - inversion H; subst. exists EmptyString. rewrite Hm. left. reflexivity.
  - exact (IH H).
  - inversion H; subst. exists (String a t). rewrite Hm. left. reflexivity.
Qed.

Lemma first_match_numbered (patterns : list regex) (text : string) (x : outcome) :
  Forall numbered patterns ->
  first_match patterns text = Some x ->
  exists g, group x = PStr g /\ number_text g.
Proof.
  induction 1 as [| p ps Hp _ IH]; cbn [first_match]; [discriminate |].
  destruct (search true p text) as [y |] eqn:Hs; [| exact IH].
  intros H. inversion H; subst.
  destruct (search_outcome _ _ _ _ Hs) as (s' & Hin).
  destruct (numbered_outcomes true p Hp s' x Hin) as (g & Hg & Hn).
  exists g. unfold group. rewrite Hg. split; [reflexivity | exact Hn].
Qed.

Lemma kwh_patterns_numbered : Forall numbered kwh_patterns.
Proof.
  unfold kwh_patterns. constructor; [| constructor; [| constructor; [| constructor]]].
  - apply numbered_left; [apply numbered_here | reflexivity].
  - apply numbered_left; [apply numbered_here | reflexivity].
  - do 5 apply numbered_right. apply numbered_here.
  - do 5 apply numbered_right. apply numbered_here.
  - constructor.
Qed.

Lemma amount_patterns_numbered : Forall numbered amount_patterns.
Proof.
  unfold amount_patterns. constructor; [| constructor; [| constructor]].
  - apply numbered_right. apply numbered_here.
  - do 6 apply numbered_right. apply numbered_here.
  - do 6 apply numbered_right. apply numbered_here.
  - constructor.
Qed.

(** What the two fallible steps of the parser do. *)
Lemma extract_kwh_ok (text : string) (b : bill) :
  match first_match kwh_patterns text with
  | Some _ =>
      exists q, (0 <= q)%Q
        /\ extract_kwh text b
           = Ok {| kwh := NFloat (Fin q); amount := amount b;
                   service_period := service_period b; provider := provider b;
                   confidence := num_add (confidence b) (Fin 0.3) |}
  | None => extract_kwh text b = Ok b
  end.
Proof.
  unfold extract_kwh.
  destruct (first_match kwh_patterns text) as [x |] eqn:Hx; [| reflexivity].
  destruct (first_match_numbered _ _ _ kwh_patterns_numbered Hx) as (g & Hg & Hn).
  destruct (number_text_converts g Hn) as (q & Hq & Hq0).
  exists q. split; [exact Hq0 |]. rewrite Hg. cbn [py_float]. rewrite Hq. reflexivity.
Qed.

Lemma extract_amount_ok (text : string) (b : bill) :
  match first_match amount_patterns text with
  | Some _ =>
      exists q, (0 <= q)%Q
        /\ extract_amount text b
           = Ok {| kwh := kwh b; amount := NFloat (Fin q);
                   service_period := service_period b; provider := provider b;
                   confidence := num_add (confidence b) (Fin 0.2) |}
  | None => extract_amount text b = Ok b
  end.
Proof.
  unfold extract_amount.
  destruct (first_match amount_patterns text) as [x |] eqn:Hx; [| reflexivity].
  destruct (first_match_numbered _ _ _ amount_patterns_numbered Hx) as (g & Hg & Hn).
  destruct (number_text_converts g Hn) as (q & Hq & Hq0).
  exists q. split; [exact Hq0 |]. rewrite Hg. cbn [py_float]. rewrite Hq. reflexivity.
Qed.


(** The parsed bill, step by step, now that no step raises. *)
Lemma parse_shape (text : string) :
  exists qk qa,
    (0 <= qk)%Q /\ (0 <= qa)%Q
    /\ parse_utility_bill text
       = clamp (extract_provider text (extract_period text
           {| kwh := if found (first_match kwh_patterns text)
                     then NFloat (Fin qk) else NInt 0;
              amount := if found (first_match amount_patterns text)
                        then NFloat (Fin qa) else NInt 0;
              service_period := EmptyString;
              provider := EmptyString;
              confidence :=
                let c := if found (first_match kwh_patterns text)
                         then num_add (NInt 0) (Fin 0.3) else NInt 0 in
                if found (first_match amount_patterns text)
                then num_add c (Fin 0.2) else c |})).
Proof.
  unfold parse_utility_bill.
  pose proof (extract_kwh_ok text initial) as Hk.
  destruct (first_match kwh_patterns text) as [x |]; cbn [found].
  - destruct Hk as (qk & Hqk & ->).
    match goal with |- context [extract_amount text ?b] =>
      pose proof (extract_amount_ok text b) as Ha end.
    destruct (first_match amount_patterns text) as [y |]; cbn [found].
    + destruct Ha as (qa & Hqa & ->). exists qk, qa. repeat split; assumption || reflexivity.
    + rewrite Ha. exists qk, 0%Q. repeat split; assumption || reflexivity || discriminate.
  - rewrite Hk. pose proof (extract_amount_ok text initial) as Ha.
    destruct (first_match amount_patterns text) as [y |]; cbn [found].
    + destruct Ha as (qa & Hqa & ->). exists 0%Q, qa.
      repeat split; assumption || reflexivity || discriminate.
    + rewrite Ha. exists 0%Q, 0%Q. repeat split; reflexivity || discriminate.
Qed.

Lemma first_provider_listed (candidates : list string) (text p : string) :
  first_provider candidates text = Some p ->
  In p candidates /\ contains (lower p) (lower text) = true.
Proof.
  induction candidates as [| c cs IH]; cbn [first_provider]; [discriminate |].
  destruct (contains (lower c) (lower text)) eqn:Hc; intros H.
  - inversion H; subst. split; [left; reflexivity | exact Hc].
  - destruct (IH H) as [Hin Hp]. split; [right; exact Hin | exact Hp].
Qed.



Lemma first_provider_app (before after : list string) (p text : string) :
  Forall (fun p' => contains (lower p') (lower text) = false) before ->
  contains (lower p) (lower text) = true ->
  first_provider (before ++ p :: after) text = Some p.
Proof.
  induction 1 as [| c cs Hc _ IH]; intros Hp; cbn [app first_provider].
  - rewrite Hp. reflexivity.
  - rewrite Hc. exact (IH Hp).
Qed.

Lemma first_provider_none (candidates : list string) (text : string) :
  Forall (fun p' => contains (lower p') (lower text) = false) candidates ->
  first_provider candidates text = None.
Proof.
  induction 1 as [| c cs Hc _ IH]; cbn [first_provider]; [reflexivity |].
  rewrite Hc. exact IH.
Qed.

Lemma provider_of_parse (text : string) :
  provider (parse_utility_bill text)
  = match first_provider providers text with
    | Some p => p
    | None => EmptyString
    end.
Proof.
  destruct (parse_shape text) as (qk & qa & _ & _ & ->).
  unfold clamp, extract_provider, extract_period.
  destruct (first_provider providers text);
    destruct (findall date_pattern text) as [| d0 [| d1 ds]]; reflexivity.
Qed.

(** X9. The provider of a parsed bill is the first name of the list, in
    the order of the list and not of the text, that occurs in the text
    when letter case is ignored; it is spelled as in the list. With no
    name occurring it stays empty, so the provider is always empty or one
    of the five names. *)
Theorem provider_is_first_listed_name (text : string) :
  (forall before p after,
      providers = before ++ p :: after ->
      Forall (fun p' => contains (lower p') (lower text) = false) before ->
      contains (lower p) (lower text) = true ->
      provider (parse_utility_bill text) = p)
  /\ (Forall (fun p' => contains (lower p') (lower text) = false) providers ->
      provider (parse_utility_bill text) = EmptyString)
  /\ (provider (parse_utility_bill text) = EmptyString
      \/ In (provider (parse_utility_bill text)) providers).
Proof.
  rewrite provider_of_parse. split; [| split].
  - intros before p after Hl Hb Hp. rewrite Hl.
    rewrite (first_provider_app before after p text Hb Hp). reflexivity.
  - intros Hn. rewrite (first_provider_none _ _ Hn). reflexivity.
  - destruct (first_provider providers text) as [p |] eqn:Hp; [right | left; reflexivity].
    exact (proj1 (first_provider_listed _ _ _ Hp)).
Qed.

(** A bill that names ConEd before PG&E, in lower case: the list order
    decides, and the spelling is the list's. *)
Lemma provider_order_example :
  provider (parse_utility_bill "billed by coned on behalf of pg&e") = "PG&E".
Proof.
  destruct (provider_is_first_listed_name "billed by coned on behalf of pg&e")
    as (H & _).
  apply (H [] "PG&E" ["ConEd"; "Duke Energy"; "Southern Company"; "Electric Company"]);
    [reflexivity | constructor | vm_compute; reflexivity].
Defined.

(** Under [re.IGNORECASE] the pattern spelled [KWH] matches what the
    pattern spelled [kWh] matches. *)
Lemma upper_pattern_same_matches (s : string) :
  match_here true (Cat number_group (Cat (star Space) (lit "KWH"))) s
  = match_here true (Cat number_group (Cat (star Space) (lit "kWh"))) s.
Proof. reflexivity. Qed.

Lemma upper_pattern_same_search (s : string) :
  search true (Cat number_group (Cat (star Space) (lit "KWH"))) s
  = search true (Cat number_group (Cat (star Space) (lit "kWh"))) s.
Proof.
  induction s as [| a t IH]; cbn [search]; rewrite upper_pattern_same_matches;
    [reflexivity |].
  rewrite IH. reflexivity.
Qed.

(** X10. The second quantity pattern, [(\d+(?:\.\d+)?)\s*KWH], never
    supplies the match: every search ignores letter case, so it matches
    exactly where the first pattern does, and taking it out of the list
    changes no result. *)
Theorem upper_kwh_pattern_is_redundant (text : string) :
  first_match kwh_patterns text = first_match kwh_patterns_without_upper text
  /\ (search true (Cat number_group (Cat (star Space) (lit "kWh"))) text = None ->
      search true (Cat number_group (Cat (star Space) (lit "KWH"))) text = None).
Proof.
  split.
  - unfold kwh_patterns_without_upper, kwh_patterns. cbn [first_match].
    rewrite upper_pattern_same_search.
    destruct (search true (Cat number_group (Cat (star Space) (lit "kWh"))) text);
      reflexivity.
  - intros H. rewrite upper_pattern_same_search. exact H.
Qed.

(** ** From a bill to its estimation *)

Section BillEstimation.

Variable predict : FeatureVector -> py pyfloat.
Variable str_exn : exn -> string.



End BillEstimation.

(** ** The default model's training data *)

Lemma product_bounds (a b u v : Q) :
  (0 <= a <= u)%Q -> (0 <= b <= v)%Q -> (0 <= a * b <= u * v)%Q.
Proof.
  intros [Ha Hau] [Hb Hbv]. split.
  - apply Qmult_le_0_compat; assumption.
  - apply Qle_trans with (u * b)%Q.
    + apply Qmult_le_compat_r; assumption.
    + rewrite (Qmult_comm u b), (Qmult_comm u v).
      apply Qmult_le_compat_r; [assumption | lra].
Qed.

(** X12. Every label [create_default_model] fits the forest to is
    finite, not negative and at most 5324.8: the samples have a quantity
    in [0,2000], a household size in [0,6], a region factor in [0,2] and an
    efficiency in [0,1]. *)
Theorem training_labels_bounded (k h g e : Q) :
  (0 <= k <= 2000)%Q -> (0 <= h <= 6)%Q -> (0 <= g <= 2)%Q -> (0 <= e <= 1)%Q ->
  exists l,
    training_label (Fin k) (Fin h) (Fin g) (Fin e) = Fin l
    /\ (l == k * 0.416 * (1 + h * 0.1) * g * (2 - e))%Q
    /\ (0 <= l <= 5324.8)%Q.
Proof.
  intros Hk Hh Hg He. unfold training_label. cbn [fmul fadd fneg].
  eexists. split; [reflexivity |].
  assert (Heq : (Qred (Qred (Qred (Qred (k * 0.416) * Qred (1 + Qred (h * 0.1))) * g)
                       * Qred (2 + Qred (- e)))
                 == k * 0.416 * (1 + h * 0.1) * g * (2 - e))%Q).
  { rewrite !Qred_eq. ring. }
  split; [exact Heq |]. rewrite Heq.
  assert (H1 : (0 <= k * 0.416 <= 2000 * 0.416)%Q) by (split; lra).
  assert (H2 : (0 <= 1 + h * 0.1 <= 1.6)%Q) by (split; lra).
  assert (H3 : (0 <= 2 - e <= 2)%Q) by (split; lra).
  pose proof (product_bounds _ _ _ _ H1 H2) as H12.
  pose proof (product_bounds _ _ _ _ H12 Hg) as H123.
  pose proof (product_bounds _ _ _ _ H123 H3) as H.
  split; [exact (proj1 H) |].
  apply Qle_trans with (2000 * 0.416 * 1.6 * 2 * 2)%Q; [exact (proj2 H) |].
  vm_compute. discriminate.
Qed.

Lemma training_labels_bounded_witness :
  (0 <= 500 <= 2000)%Q /\ (0 <= 2 <= 6)%Q /\ (0 <= 1 <= 2)%Q /\ (0 <= 0.8 <= 1)%Q
  /\ training_label (Fin 500) (Fin 2) (Fin 1) (Fin 0.8) = Fin (7488 # 25).
Proof.
  assert (H1 : (0 <= 500 <= 2000)%Q) by (split; vm_compute; discriminate).
  assert (H2 : (0 <= 2 <= 6)%Q) by (split; vm_compute; discriminate).
  assert (H3 : (0 <= 1 <= 2)%Q) by (split; vm_compute; discriminate).
  assert (H4 : (0 <= 0.8 <= 1)%Q) by (split; vm_compute; discriminate).
  destruct (training_labels_bounded 500 2 1 0.8 H1 H2 H3 H4) as (l & Hl & _).
  repeat (split; [assumption |]). rewrite Hl. vm_compute in Hl.
  inversion Hl. reflexivity.
Defined.

(** ** The endpoints *)

Section EndpointFacts.

Variable predict : FeatureVector -> py pyfloat.
Variable str_of : endpoint_exn -> string.
Variable now : string.

(** X13. An estimation error is never an HTTP error: [calculate_carbon]
    answers 500 only for a body it cannot decode. For every decoded body,
    a dict or not, it answers 200 with [success] true and a result that
    holds a number under [co2_kg] and under [confidence]; the result
    carries [error] exactly when the body is not a dict or the estimation
    raised. *)
Theorem estimation_errors_are_not_http_errors (request : request_json) :
  (status (calculate_carbon predict str_of now request) = 500%nat
   <-> exists m, request = Undecodable m)
  /\ forall v, request = Decoded v ->
       status (calculate_carbon predict str_of now request) = 200%nat
       /\ body (calculate_carbon predict str_of now request) !! "success"
          = Some (PBool true)
       /\ exists r,
            body (calculate_carbon predict str_of now request) !! "result" = Some (PDict r)
            /\ is_Some (number_of (r !! "co2_kg"))
            /\ is_Some (number_of (r !! "confidence"))
            /\ (is_Some (r !! "error")
                <-> match v with
                    | PDict d => raises (estimate predict d)
                    | _ => True
                    end).
Proof.
  split.
  - destruct request as [v | m]; cbn [calculate_carbon status failure]; split.
    + discriminate.
    + intros [m Hm]. discriminate Hm.
    + eauto.
    + reflexivity.
  - intros v ->. cbn [calculate_carbon status body].
    split; [reflexivity |]. split; [reflexivity |].
    eexists. split; [reflexivity |].
    assert (Hnd : forall w,
               let r := dict_of [ ("co2_kg", PInt 0); ("confidence", PInt 0);
                                  ("error", PStr (str_of (AttributeError w "get"))) ] in
               is_Some (number_of (r !! "co2_kg"))
               /\ is_Some (number_of (r !! "confidence"))
               /\ (is_Some (r !! "error") <-> True)).
    { intros w. repeat split; eexists; reflexivity. }
    destruct v as [| b | z | f | s | l | d]; try apply Hnd.
    cbn [calculate_from_energy_data_on]. unfold calculate_from_energy_data.
    destruct (estimate predict d) as [r | e] eqn:He.
    + destruct (estimate_ok_dict predict d r He)
        as (q & hs & f & p & c & sp & recs & _ & _ & _ & _ & _ & _ & _ & ->).
      repeat split; try (eexists; reflexivity); try contradiction.
      intros [w Hw]. vm_compute in Hw. discriminate Hw.
    + destruct (error_result_fields (fun e => str_of (EngineError e)) e)
        as (H1 & H2 & H3 & _).
      rewrite H1, H2, H3. cbn [raises]. repeat split; eexists; reflexivity.
Qed.


(** X15. When the recognition of an uploaded image raises, the upload is
    still analysed: [analyze_image] answers 200 with [success] true, an
    empty text, the default bill data (quantity 0, confidence 0) and no
    carbon analysis. *)
Theorem analysis_survives_recognition_failure (filename : string) (e : exn) :
  filename <> EmptyString ->
  status (analyze_image_upload predict str_of now (Some filename) (inr tt) (Raise e))
    = 200%nat
  /\ body (analyze_image_upload predict str_of now (Some filename) (inr tt) (Raise e))
     = dict_of [ ("success", PBool true);
                 ("ocr_text", PStr EmptyString);
                 ("parsed_data", PDict (bill_dict initial));
                 ("carbon_analysis", PNone);
                 ("timestamp", PStr now) ]
  /\ bill_dict initial !! "confidence" = Some (PInt 0)
  /\ bill_dict initial !! "kwh" = Some (PInt 0).
Proof.
  intros Hf. unfold analyze_image_upload.
  destruct (String.eqb filename EmptyString) eqn:He.
  - apply String.eqb_eq in He. contradiction.
  - cbn [extract_text_from_image status body]. repeat split; reflexivity.
Qed.

End EndpointFacts.

Lemma analysis_survives_recognition_failure_witness :
  "bill.png" <> EmptyString
  /\ status (analyze_image_upload label_model (fun _ => "error"%string) "2024-01-31"
               (Some "bill.png") (inr tt) (Raise (ModelError "cannot identify image file")))
     = 200%nat.
Proof.
  assert (H : "bill.png" <> EmptyString) by discriminate.
  split; [exact H |].
  exact (proj1 (analysis_survives_recognition_failure label_model (fun _ => "error"%string)
                  "2024-01-31" "bill.png" (ModelError "cannot identify image file") H)).
Defined.

(** A quantity given as the string "1500" gets three recommendations
    from [get_recommendations] and the error result from
    [calculate_carbon]. *)
Lemma string_quantity_is_treated_differently :
  (let r := get_recommendations (fun _ => "error"%string) "2024-01-31"
              (Decoded (PDict (dict_of
                 [ ("user_profile", PDict (dict_of [ ("kWh", PStr "1500") ])) ]))) in
   status r = 200%nat
   /\ match body r !! "recommendations" with
      | Some (PList l) => titles l
      | _ => []
      end
      = [ Some (PStr "High Energy Usage Detected"); Some (PStr "LED Lighting Upgrade");
          Some (PStr "Smart Thermostat") ])
  /\ (let r := calculate_carbon label_model (fun _ => "error"%string) "2024-01-31"
                 (Decoded (PDict (dict_of [ ("kWh", PStr "1500") ]))) in
      status r = 200%nat
      /\ field (body r !! "result") "co2_kg" = Some (PInt 0)
      /\ field (body r !! "result") "error" = Some (PStr "error")).
Proof. repeat split; vm_compute; reflexivity. Qed.

(** ** What is extracted stands in the text *)

Lemma append_assoc (a b c : string) : (a +:+ b) +:+ c = a +:+ (b +:+ c).
Proof.
  induction a as [| x a IH]; [reflexivity |].
  change (String x a +:+ b) with (String x (a +:+ b)).
  change (String x (a +:+ b) +:+ c) with (String x ((a +:+ b) +:+ c)).
  rewrite IH. reflexivity.
Qed.





Lemma substring_left (g a b : string) : substring_of g a -> substring_of g (a +:+ b).
Proof.
  intros (pre & post & ->). exists pre, (post +:+ b).
  rewrite !append_assoc. reflexivity.
Qed.

Lemma substring_right (g a b : string) : substring_of g b -> substring_of g (a +:+ b).
Proof.
  intros (pre & post & ->). exists (a +:+ pre), post.
  rewrite !append_assoc. reflexivity.
Qed.

Lemma substring_trans (g c s : string) :
  substring_of g c -> substring_of c s -> substring_of g s.
Proof.
  intros Hg (pre & post & ->). apply substring_right, substring_left. exact Hg.
Qed.








